(** * Vacation tracker backend (src/src/backend.js): a shallow embedding

    The Google Apps Script backend keeps two sheets: [Solicitudes] (one row
    per vacation request) and [Empleados] (one row per employee).  This file
    embeds the request lifecycle of backend.js: the conflict scans, the
    business-day counter, the balance recompute, the calendar side effects
    and the public mutating endpoints.

    Modelling conventions:
    - a calendar date is a day number [Z] (days since 1970-01-01, a
      Thursday); [normalizeDate_] (local midnight) is the identity on it, and
      an empty or unparseable date cell is [None] (its [getTime()] is NaN,
      so every comparison with it is false);
    - cell values are strings or numbers as the sheet holds them; numeric
      cells already went through [Number(x) || 0];
    - the Apps Script services are explicit state: the sheets, the calendar,
      the mail outbox, the user cache of the rate limiter and the script lock;
    - exceptions are the [Err] branch of a state-and-error monad; a thrown
      [Error] carries the constructor of [error] naming its message;
    - every access to the spreadsheet goes through [touch], which records the
      access together with whether the script lock is held, and which throws
      once the storage fault budget [db_fuel] is exhausted (a storage outage
      in the middle of a transaction). *)

From Stdlib Require Import ZArith String Ascii.
From stdpp Require Import base gmap list strings sorting pretty.

Open Scope string_scope.
Open Scope Z_scope.

(* ------------------------------------------------------------------ *)
(** ** Strings *)

Module Str.

(** [s.includes(needle)] *)
Fixpoint includes (needle s : string) : bool :=
  if String.prefix needle s then true
  else match s with
       | EmptyString => false
       | String _ s' => includes needle s'
       end.

(** The whitespace [String.prototype.trim] strips (ASCII part). *)
Definition is_ws (c : ascii) : bool :=
  let n := nat_of_ascii c in
  Nat.eqb n 32 || Nat.eqb n 9 || Nat.eqb n 10 || Nat.eqb n 11
  || Nat.eqb n 12 || Nat.eqb n 13.

Fixpoint trim_left (s : string) : string :=
  match s with
  | EmptyString => EmptyString
  | String c s' => if is_ws c then trim_left s' else s
  end.

Fixpoint rev_str (s : string) (acc : string) : string :=
  match s with
  | EmptyString => acc
  | String c s' => rev_str s' (String c acc)
  end.

(** [s.trim()] *)
Definition trim (s : string) : string :=
  rev_str (trim_left (rev_str (trim_left s) EmptyString)) EmptyString.

Definition lower_ascii (c : ascii) : ascii :=
  let n := nat_of_ascii c in
  if (Nat.leb 65 n && Nat.leb n 90)%bool then ascii_of_nat (n + 32) else c.

(** [s.toLowerCase()] (ASCII letters) *)
Fixpoint lower (s : string) : string :=
  match s with
  | EmptyString => EmptyString
  | String c s' => String (lower_ascii c) (lower s')
  end.

(** JavaScript truthiness of a string value. *)
Definition truthy (s : string) : bool :=
  match s with EmptyString => false | _ => true end.

Definition eqb (a b : string) : bool := if decide (a = b) then true else false.

End Str.

(** The status strings of the sheet.  The accented letter is written as its
    two UTF-8 bytes so that the file stays ASCII. *)
Definition o_acute : string :=
  String (ascii_of_nat 195) (String (ascii_of_nat 179) EmptyString).

Definition ST_PENDING : string := "Pendiente".
Definition ST_REVIEW : string := "Necesita Revisi" ++ o_acute ++ "n".
Definition ST_APPROVED : string := "Aprobado".
Definition ST_APPROVED_EXC : string := "Aprobado (Excepci" ++ o_acute ++ "n)".
Definition ST_CANCELLED : string := "Cancelado".


(* ------------------------------------------------------------------ *)
(** ** Data model *)

(** A row of the [Solicitudes] sheet: columns A..H are
    Timestamp, Email, Empleado, Inicio, Fin, Estado, Dias, EventId.  The sheet
    row number of the [i]-th data row (0-based) is [i + 2].  [r_note] is the
    cell note attached to the Estado cell. *)
Record Req := mkReq {
  r_ts : Z;
  r_email : string;
  r_emp : string;
  r_start : option Z;
  r_end : option Z;
  r_status : string;
  r_days : Z;
  r_event : string;
  r_note : string
}.

(** A row of the [Empleados] sheet: columns A..F are Name, Email, Team,
    SaldoHR, Usados and (optionally, when the header [SaldoVacaciones] is
    present) the override balance. *)
Record Emp := mkEmp {
  e_name : string;
  e_email : string;
  e_team : string;
  e_saldoHR : Z;
  e_usados : Z;
  e_saldoVac : Z
}.

(** An all-day event of the [Team Vacations] calendar: title, first day and
    end-exclusive last day. *)
Record Event := mkEvent { ev_title : string; ev_start : Z; ev_end : Z }.

Inductive table := T_Requests | T_Employees | T_Managers | T_Audit.

(** The trace of an invocation: lock operations, spreadsheet accesses (with
    whether the script lock was held at that moment) and, as a ghost marker,
    the entry into [processRequestRow_]. *)
Inductive trace_ev :=
| EvAcquire
| EvRelease
| EvAccess (t : table) (locked : bool)
| EvRowProcessing.

(** Thrown errors, named after the messages of backend.js. *)
Inductive error :=
| E_RateLimit (minutes : Z)   (* "Too many attempts. Please try again in ... minutes." *)
| E_Busy                      (* "Server busy. Please try again." / "Server busy." *)
| E_Storage                   (* a spreadsheet call failed *)
| E_PastDate                  (* "Cannot request vacation for past dates." *)
| E_MinAdvance                (* "Requests must be made at least ... days in advance." *)
| E_Duplicate                 (* "You already have a request for these dates." *)
| E_Unauthorized              (* "Unauthorized: Only managers can perform this action." *)
| E_NotFound                  (* "Request not found or permission denied." *)
| E_CannotCancel (status : string)  (* "Cannot cancel request with status: ${status}" *)
| E_Insufficient (remaining dias : Z)
    (* "Insufficient balance. Employee has ${remaining} days left, but
        requested ${dias}. Use \"Approved (Exception)\" to override." *)
| E_Calendar                  (* a CalendarApp call failed *)
| E_Range.                    (* a write to a row outside the data rows *)

Record St := mkSt {
  st_reqs : list Req;               (* Solicitudes data rows *)
  st_emps : list Emp;               (* Empleados data rows *)
  st_saldo_col : bool;              (* header 'SaldoVacaciones' present *)
  st_managers : list string;        (* 'Notificar Solicitudes', trimmed, deduplicated *)
  st_events : gmap string Event;    (* calendar events by id *)
  st_next_ev : nat;                 (* id supply of createAllDayEvent *)
  st_cal_fault : bool;              (* CalendarApp throws *)
  st_outbox : list (string * string); (* sent mails: recipient, subject *)
  st_mail_fault : bool;             (* MailApp throws *)
  st_rl : gmap string Z;            (* CacheService user cache of the rate limiter *)
  st_lock : bool;                   (* the script lock is held by this invocation *)
  st_lock_busy : bool;              (* another invocation holds it past the wait *)
  st_db_fuel : option nat;          (* storage calls left before an outage *)
  st_trace : list trace_ev
}.

Definition set_reqs (f : list Req -> list Req) (s : St) : St :=
  mkSt (f (st_reqs s)) (st_emps s) (st_saldo_col s) (st_managers s) (st_events s)
    (st_next_ev s) (st_cal_fault s) (st_outbox s) (st_mail_fault s) (st_rl s)
    (st_lock s) (st_lock_busy s) (st_db_fuel s) (st_trace s).
Definition set_emps (f : list Emp -> list Emp) (s : St) : St :=
  mkSt (st_reqs s) (f (st_emps s)) (st_saldo_col s) (st_managers s) (st_events s)
    (st_next_ev s) (st_cal_fault s) (st_outbox s) (st_mail_fault s) (st_rl s)
    (st_lock s) (st_lock_busy s) (st_db_fuel s) (st_trace s).
Definition set_cal (evs : gmap string Event) (n : nat) (s : St) : St :=
  mkSt (st_reqs s) (st_emps s) (st_saldo_col s) (st_managers s) evs
    n (st_cal_fault s) (st_outbox s) (st_mail_fault s) (st_rl s)
    (st_lock s) (st_lock_busy s) (st_db_fuel s) (st_trace s).
Definition set_outbox (o : list (string * string)) (s : St) : St :=
  mkSt (st_reqs s) (st_emps s) (st_saldo_col s) (st_managers s) (st_events s)
    (st_next_ev s) (st_cal_fault s) o (st_mail_fault s) (st_rl s)
    (st_lock s) (st_lock_busy s) (st_db_fuel s) (st_trace s).
Definition set_rl (rl : gmap string Z) (s : St) : St :=
  mkSt (st_reqs s) (st_emps s) (st_saldo_col s) (st_managers s) (st_events s)
    (st_next_ev s) (st_cal_fault s) (st_outbox s) (st_mail_fault s) rl
    (st_lock s) (st_lock_busy s) (st_db_fuel s) (st_trace s).
Definition set_lock (b : bool) (s : St) : St :=
  mkSt (st_reqs s) (st_emps s) (st_saldo_col s) (st_managers s) (st_events s)
    (st_next_ev s) (st_cal_fault s) (st_outbox s) (st_mail_fault s) (st_rl s)
    b (st_lock_busy s) (st_db_fuel s) (st_trace s).
Definition set_fuel (f : option nat) (s : St) : St :=
  mkSt (st_reqs s) (st_emps s) (st_saldo_col s) (st_managers s) (st_events s)
    (st_next_ev s) (st_cal_fault s) (st_outbox s) (st_mail_fault s) (st_rl s)
    (st_lock s) (st_lock_busy s) f (st_trace s).
Definition log (e : trace_ev) (s : St) : St :=
  mkSt (st_reqs s) (st_emps s) (st_saldo_col s) (st_managers s) (st_events s)
    (st_next_ev s) (st_cal_fault s) (st_outbox s) (st_mail_fault s) (st_rl s)
    (st_lock s) (st_lock_busy s) (st_db_fuel s) (app (st_trace s) [e]).

(* ------------------------------------------------------------------ *)
(** ** The state-and-exception monad *)

Inductive res (A : Type) := Ok (a : A) | Err (e : error).
Arguments Ok {A} a.
Arguments Err {A} e.

Definition M (A : Type) : Type := St -> res A * St.

Definition ret {A} (a : A) : M A := fun s => (Ok a, s).
Definition throw {A} (e : error) : M A := fun s => (Err e, s).
Definition bind {A B} (m : M A) (k : A -> M B) : M B :=
  fun s => match m s with
           | (Ok a, s') => k a s'
           | (Err e, s') => (Err e, s')
           end.
(** [try { m } catch (e) { h }]: the effects of [m] up to the throw stay. *)
Definition catch {A} (m : M A) (h : error -> M A) : M A :=
  fun s => match m s with
           | (Ok a, s') => (Ok a, s')
           | (Err e, s') => h e s'
           end.
(** [try { m } finally { f }] *)
Definition finally {A} (m : M A) (f : M unit) : M A :=
  fun s => let (r, s') := m s in
           match f s' with
           | (Ok _, s'') => (r, s'')
           | (Err e, s'') => (Err e, s'')
           end.
Definition modify (f : St -> St) : M unit := fun s => (Ok tt, f s).
Definition gets {A} (f : St -> A) : M A := fun s => (Ok (f s), s).

Notation "x <- m ;; k" := (bind m (fun x => k))
  (at level 95, m at next level, right associativity).
Notation "m ;;; k" := (bind m (fun _ => k))
  (at level 95, right associativity).

(** One call into SpreadsheetApp: fails once the fault budget is spent. *)
Definition storage_op : M unit :=
  fun s => match st_db_fuel s with
           | None => (Ok tt, s)
           | Some O => (Err E_Storage, s)
           | Some (S n) => (Ok tt, set_fuel (Some n) s)
           end.

(** A read or write of a sheet, recorded with the lock state. *)
Definition touch (t : table) : M unit :=
  storage_op ;;; (fun s => (Ok tt, log (EvAccess t (st_lock s)) s)).

(** [_getDb()] *)
Definition _getDb : M unit := storage_op.

(* ------------------------------------------------------------------ *)
(** ** Row access *)

Definition empty_req : Req := mkReq 0 "" "" None None "" 0 "" "".

(** The data row shown at sheet row [rowId]. *)
Definition req_at (rowId : Z) (rs : list Req) : option Req :=
  if 2 <=? rowId then rs !! Z.to_nat (rowId - 2) else None.

(** [sheet.getRange(rowId, col).getValue()]: a cell below the data reads as
    empty. *)
Definition get_cell {A} (rowId : Z) (f : Req -> A) : M A :=
  touch T_Requests ;;;
  gets (fun s => f (default empty_req (req_at rowId (st_reqs s)))).

(** [sheet.getRange(rowId, col).setValue(..)] on a data row. *)
Definition set_cell (rowId : Z) (f : Req -> Req) : M unit :=
  touch T_Requests ;;;
  fun s => match req_at rowId (st_reqs s) with
           | Some q => (Ok tt, set_reqs (fun rs => <[Z.to_nat (rowId - 2) := f q]> rs) s)
           | None => (Err E_Range, s)
           end.

Definition with_status (v : string) (q : Req) : Req :=
  mkReq (r_ts q) (r_email q) (r_emp q) (r_start q) (r_end q) v (r_days q) (r_event q) (r_note q).
Definition with_dates (a b : option Z) (q : Req) : Req :=
  mkReq (r_ts q) (r_email q) (r_emp q) a b (r_status q) (r_days q) (r_event q) (r_note q).
Definition with_start (a : option Z) (q : Req) : Req := with_dates a (r_end q) q.
Definition with_end (b : option Z) (q : Req) : Req := with_dates (r_start q) b q.
Definition with_days (d : Z) (q : Req) : Req :=
  mkReq (r_ts q) (r_email q) (r_emp q) (r_start q) (r_end q) (r_status q) d (r_event q) (r_note q).
Definition with_event (e : string) (q : Req) : Req :=
  mkReq (r_ts q) (r_email q) (r_emp q) (r_start q) (r_end q) (r_status q) (r_days q) e (r_note q).
Definition with_note (n : string) (q : Req) : Req :=
  mkReq (r_ts q) (r_email q) (r_emp q) (r_start q) (r_end q) (r_status q) (r_days q) (r_event q) n.

(** [sh.getDataRange().getValues()] without the header row. *)
Definition get_all_reqs : M (list Req) := touch T_Requests ;;; gets st_reqs.

(* ------------------------------------------------------------------ *)
(** ** Dates *)

(** [a <= b] on [getTime()] values; NaN compares false. *)
Definition le_t (a b : option Z) : bool :=
  match a, b with Some x, Some y => x <=? y | _, _ => false end.

(** [Date.prototype.getDay()]: 0 is Sunday; day 0 was a Thursday. *)
Definition getDay (d : Z) : Z := (d + 4) mod 7.

Fixpoint count_loop (fuel : nat) (cur e count : Z) : Z :=
  match fuel with
  | O => count
  | S f =>
      if cur <=? e then
        let day := getDay cur in
        count_loop f (cur + 1) e
          (if negb (day =? 0) && negb (day =? 6) then count + 1 else count)
      else count
  end.

(** [countBusinessDays_(start, end)]; the [while (cur <= e)] loop runs
    [e - s + 1] times. *)
Definition countBusinessDays_ (start end_ : option Z) : Z :=
  match start, end_ with
  | Some s, Some e => if e <? s then 0 else count_loop (Z.to_nat (e - s + 1)) s e 0
  | _, _ => 0
  end.

(* ------------------------------------------------------------------ *)
(** ** Employee lookups *)

(** [getEmployeeTeam_(empleado)] *)
Definition find_team (search : string) (es : list Emp) : string :=
  match List.find (fun e => Str.eqb (Str.lower (Str.trim (e_name e))) search
                            || Str.eqb (Str.lower (Str.trim (e_email e))) search) es with
  | Some e => e_team e
  | None => ""
  end.

Definition getEmployeeTeam_ (empleado : string) : M string :=
  _getDb ;;; touch T_Employees ;;;
  gets (fun s => find_team (Str.lower (Str.trim empleado)) (st_emps s)).

(** [_buscarNombrePorEmail(email)] *)
Definition _buscarNombrePorEmail (email : string) : M string :=
  _getDb ;;; touch T_Employees ;;;
  gets (fun s =>
    let search := Str.lower (Str.trim email) in
    match List.find (fun e => Str.eqb (Str.lower (Str.trim (e_email e))) search) (st_emps s) with
    | Some e => e_name e
    | None => email
    end).

(** [getEmployeeTotals_(key)] returns total, usados, remaining. *)
Record Totals := mkTotals { t_total : Z; t_usados : Z; t_remaining : Z }.

Definition totals_of (saldo_col : bool) (search : string) (es : list Emp) : Totals :=
  match List.find (fun e => Str.eqb (Str.lower (Str.trim (e_name e))) search
                            || Str.eqb (Str.lower (Str.trim (e_email e))) search) es with
  | Some e =>
      mkTotals (e_saldoHR e) (e_usados e)
        (if saldo_col then e_saldoVac e else e_saldoHR e - e_usados e)
  | None => mkTotals 0 0 0
  end.

Definition getEmployeeTotals_ (key : string) : M Totals :=
  _getDb ;;; touch T_Employees ;;;
  gets (fun s => totals_of (st_saldo_col s) (Str.lower (Str.trim key)) (st_emps s)).

(* ------------------------------------------------------------------ *)
(** ** Conflict scans *)

Definition active_for_overlap (est : string) : bool :=
  negb (negb (Str.eqb est ST_PENDING) && negb (Str.includes "Aprobado" est)).

(** The loop of [hasOverlapPendingOrApprovedSameEmployee_]; [r] is the
    index into [vals] (header at 0), so the data row is sheet row [r + 1]. *)
Fixpoint self_scan (empSearch : string) (s0 e0 : option Z) (currentRow r : Z)
    (rows : list Req) : option (Z * string) :=
  match rows with
  | [] => None
  | q :: rest =>
      if r + 1 =? currentRow then self_scan empSearch s0 e0 currentRow (r + 1) rest
      else if negb (Str.eqb (Str.trim (r_emp q)) empSearch)
      then self_scan empSearch s0 e0 currentRow (r + 1) rest
      else let est := r_status q in
      if negb (active_for_overlap est)
      then self_scan empSearch s0 e0 currentRow (r + 1) rest
      else if le_t s0 (r_end q) && le_t (r_start q) e0 then Some (r + 1, est)
      else self_scan empSearch s0 e0 currentRow (r + 1) rest
  end.

Definition hasOverlapPendingOrApprovedSameEmployee_ (empleado : string)
    (start end_ : option Z) (currentRow : Z) : M (option (Z * string)) :=
  _getDb ;;;
  vals <- get_all_reqs ;;
  ret (self_scan (Str.trim empleado) start end_ currentRow 1 vals).

(** A hit of the team scan: row, employee, status, team. *)
Record TeamHit := mkTeamHit { th_row : Z; th_emp : string; th_estado : string; th_team : string }.

Fixpoint team_scan (empleado team : string) (s0 e0 : option Z) (currentRow r : Z)
    (rows : list Req) : M (option TeamHit) :=
  match rows with
  | [] => ret None
  | q :: rest =>
      let continue := team_scan empleado team s0 e0 currentRow (r + 1) rest in
      if r + 1 =? currentRow then continue else
      let est := r_status q in
      if negb (active_for_overlap est) then continue else
      let emp2 := Str.trim (r_emp q) in
      if negb (Str.truthy emp2) || Str.eqb emp2 empleado then continue else
      team2 <- getEmployeeTeam_ emp2 ;;
      if negb (Str.truthy team2) || negb (Str.eqb team2 team) then continue else
      if le_t s0 (r_end q) && le_t (r_start q) e0
      then ret (Some (mkTeamHit (r + 1) emp2 est team))
      else continue
  end.

Definition hasTeamOverlapPendingOrApproved_ (empleado : string)
    (start end_ : option Z) (currentRow : Z) : M (option TeamHit) :=
  team <- getEmployeeTeam_ empleado ;;
  if negb (Str.truthy team) then ret None else
  _getDb ;;;
  vals <- get_all_reqs ;;
  team_scan empleado team start end_ currentRow 1 vals.

(* ------------------------------------------------------------------ *)
(** ** Mail, managers, calendar *)

(** The [{ success, error }] record of [sendEmailSafe_]. *)
Definition mail_res : Type := (bool * option string)%type.
Definition mail_none : mail_res := (false, None).

(** [sendEmailSafe_(to, subject, htmlBody, cc)]: never throws.  Bodies are
    not modelled; a delivered mail is recorded with its recipient and
    subject. *)
Definition sendEmailSafe_ (to subject : string) : M mail_res :=
  fun s => if st_mail_fault s then (Ok (false, Some "MailApp error"), s)
           else (Ok (true, None), set_outbox (app (st_outbox s) [(to, subject)]) s).

(** [getManagerEmails_()], read from the 'Notificar Solicitudes' sheet (the
    one-hour script cache in front of it is not modelled). *)
Definition getManagerEmails_ : M (list string) :=
  _getDb ;;; touch T_Managers ;;; gets st_managers.

(** [notifyManagersCompact_(subject, htmlBody)]: first manager as recipient,
    the others copied. *)
Definition notifyManagersCompact_ (subject : string) : M mail_res :=
  managers <- getManagerEmails_ ;;
  match managers with
  | [] => ret (false, Some "No managers found")
  | to :: _ => sendEmailSafe_ to subject
  end.

(** [getCalendar_()] *)
Definition getCalendar_ : M unit :=
  fun s => if st_cal_fault s then (Err E_Calendar, s) else (Ok tt, s).

(** [cal.getEventById(id)] *)
Definition getEventById (id : string) : M (option Event) :=
  fun s => if st_cal_fault s then (Err E_Calendar, s) else (Ok (st_events s !! id), s).

(** [ev.deleteEvent()] *)
Definition deleteEvent (id : string) : M unit :=
  fun s => if st_cal_fault s then (Err E_Calendar, s)
           else (Ok tt, set_cal (delete id (st_events s)) (st_next_ev s) s).

(** [ev.setTitle(title); ev.setAllDayDates(s, e)] *)
Definition updateEvent (id title : string) (a b : Z) : M unit :=
  fun s => if st_cal_fault s then (Err E_Calendar, s)
           else (Ok tt, set_cal (<[id := mkEvent title a b]> (st_events s)) (st_next_ev s) s).

Definition fresh_event_id (n : nat) : string := "ev" ++ pretty n.

(** [cal.createAllDayEvent(title, s, e).getId()] *)
Definition createAllDayEvent (title : string) (a b : Z) : M string :=
  fun s => if st_cal_fault s then (Err E_Calendar, s)
           else let id := fresh_event_id (st_next_ev s) in
                (Ok id, set_cal (<[id := mkEvent title a b]> (st_events s)) (S (st_next_ev s)) s).

(* ------------------------------------------------------------------ *)
(** ** Balance recompute and sorting *)

(** The property names a plain object literal inherits from
    [Object.prototype] (V8); reading one of them gives a truthy value. *)
Definition object_proto_keys : list string :=
  ["constructor"; "__defineGetter__"; "__defineSetter__"; "hasOwnProperty";
   "__lookupGetter__"; "__lookupSetter__"; "isPrototypeOf"; "propertyIsEnumerable";
   "toString"; "valueOf"; "__proto__"; "toLocaleString"].

(** The JavaScript values [recalcEmpleados_] handles: numbers, strings, a
    function inherited from [Object.prototype] (by its [name]) and
    [Object.prototype] itself (what [obj.__proto__] reads). *)
Inductive jsval :=
| JNum (z : Z)
| JStr (s : string)
| JFun (name : string)
| JObjProto.

(** The inherited value of [obj[k]] on a plain object literal: the method of
    [Object.prototype] (the [constructor] is the function [Object]), or
    [undefined] ([None]). *)
Definition proto_value (k : string) : option jsval :=
  if bool_decide (k ∈ object_proto_keys) then
    Some (if Str.eqb k "__proto__" then JObjProto
          else if Str.eqb k "constructor" then JFun "Object" else JFun k)
  else None.

(** [obj[k]] on a plain object literal whose own properties are [m]. *)
Definition js_get (m : gmap string jsval) (k : string) : option jsval :=
  match m !! k with
  | Some v => Some v
  | None => proto_value k
  end.

(** [obj[k] = v] with a primitive [v]: the [__proto__] setter ignores it. *)
Definition js_set (m : gmap string jsval) (k : string) (v : jsval) : gmap string jsval :=
  if Str.eqb k "__proto__" then m else <[k := v]> m.

Definition js_truthy (v : jsval) : bool :=
  match v with
  | JNum z => negb (z =? 0)
  | JStr s => Str.truthy s
  | JFun _ | JObjProto => true
  end.

(** [x || d], [None] being [undefined]. *)
Definition js_or (x : option jsval) (d : jsval) : jsval :=
  match x with
  | Some v => if js_truthy v then v else d
  | None => d
  end.

(** [String(v)]; a native function prints as [function f() { [native code] }]. *)
Definition js_string (v : jsval) : string :=
  match v with
  | JNum z => pretty z
  | JStr s => s
  | JFun n => "function " ++ n ++ "() { [native code] }"
  | JObjProto => "[object Object]"
  end.

(** [v + d] with a number [d]: a sum when [v] is a number, else string
    concatenation. *)
Definition js_add_num (v : jsval) (d : Z) : jsval :=
  match v with
  | JNum z => JNum (z + d)
  | _ => JStr (js_string v ++ pretty d)
  end.

(** One step of the loop building [usedByEmp]:
    [usedByEmp[emp] = (usedByEmp[emp] || 0) + dias] for a row whose status
    contains [Aprobado]. *)
Definition add_used (m : gmap string jsval) (q : Req) : gmap string jsval :=
  if Str.includes "Aprobado" (r_status q) then
    let emp := Str.trim (r_emp q) in
    js_set m emp (js_add_num (js_or (js_get m emp) (JNum 0)) (r_days q))
  else m.

(** The own properties of [usedByEmp] after the loop. *)
Definition used_by_emp (rows : list Req) : gmap string jsval :=
  fold_left add_used rows ∅.

(** [outUsed]: [usedByEmp[String(emp).trim()] || 0] for each employee row. *)
Definition out_used (rows : list Req) (es : list Emp) : list jsval :=
  let used := used_by_emp rows in
  map (fun e => js_or (js_get used (Str.trim (e_name e))) (JNum 0)) es.

Definition with_usados (u : Z) (e : Emp) : Emp :=
  mkEmp (e_name e) (e_email e) (e_team e) (e_saldoHR e) u (e_saldoVac e).

(** One cell of [setValues(outUsed)] on column E.  The employee sheet model
    holds numbers in Usados; a value that is not a number (written only for
    an employee whose name [Object.prototype] provides, see [out_used]) has
    no representation there, and the model leaves that cell as it was. *)
Definition write_used (v : jsval) (e : Emp) : Emp :=
  match v with
  | JNum z => with_usados z e
  | _ => e
  end.

(** [outUsed] written back to column E. *)
Definition recalc_emps (rows : list Req) (es : list Emp) : list Emp :=
  zip_with write_used (out_used rows es) es.

(** [recalcEmpleados_()] *)
Definition recalcEmpleados_ : M unit :=
  _getDb ;;;
  dataS <- get_all_reqs ;;
  touch T_Employees ;;;
  es <- gets st_emps ;;
  match es with
  | [] => ret tt
  | _ => touch T_Employees ;;; modify (set_emps (recalc_emps dataS))
  end.

(** The sort key of column D: empty cells go last. *)
Definition start_leb (a b : Req) : bool :=
  match r_start a, r_start b with
  | Some x, Some y => x <=? y
  | Some _, None => true
  | None, Some _ => false
  | None, None => true
  end.

Definition start_le (a b : Req) : Prop := start_leb a b = true.
#[local] Instance start_le_dec : RelDecision start_le.
Proof. intros a b. unfold start_le. apply _. Defined.

(** [sortSolicitudesByFechaInicio_()] *)
Definition sortSolicitudesByFechaInicio_ : M unit :=
  _getDb ;;; touch T_Requests ;;;
  rs <- gets st_reqs ;;
  if 2 <? Z.of_nat (length rs) + 1
  then touch T_Requests ;;; modify (set_reqs (merge_sort start_le))
  else ret tt.

(** [logAudit_(action, details, userEmail)]: failures are swallowed. *)
Definition logAudit_ : M unit :=
  catch (_getDb ;;; touch T_Audit) (fun _ => ret tt).

(* ------------------------------------------------------------------ *)
(** ** State-change side effects *)

(** [handleEstadoChange_(sheet, row, prevEstado)]; [prevEstado] is unused
    by the source as well.  Mail subjects are kept, their emoji dropped. *)
Definition handleEstadoChange_ (rowId : Z) (prevEstado : string) : M unit :=
  getCalendar_ ;;;
  email <- get_cell rowId r_email ;;
  empleado <- get_cell rowId r_emp ;;
  start <- get_cell rowId r_start ;;
  end_ <- get_cell rowId r_end ;;
  estado <- get_cell rowId r_status ;;
  eventId <- get_cell rowId r_event ;;
  if Str.eqb estado ST_APPROVED || Str.eqb estado ST_APPROVED_EXC then
    let title := if Str.eqb estado ST_APPROVED_EXC
                 then "Vacations (EXCEPTION): " ++ empleado
                 else "Vacations: " ++ empleado in
    match start, end_ with
    | Some a, Some b =>
        (* s = normalizeDate_(start); e = normalizeDate_(end) + 1 day *)
        let e := b + 1 in
        ev <- (if Str.truthy eventId then getEventById eventId else ret None) ;;
        (match ev with
         | Some _ => updateEvent eventId title a e
         | None => id <- createAllDayEvent title a e ;; set_cell rowId (with_event id)
         end) ;;;
        (if Str.truthy email
         then sendEmailSafe_ email "Vacation Approved" ;;; ret tt
         else ret tt)
    | _, _ => throw E_Calendar   (* an Invalid Date is refused by CalendarApp *)
    end
  else
    (if Str.truthy eventId then
       catch (ev <- getEventById eventId ;;
              (match ev with Some _ => deleteEvent eventId | None => ret tt end) ;;;
              set_cell rowId (with_event ""))
             (fun _ => ret tt)
     else ret tt) ;;;
    (if Str.truthy email && negb (Str.eqb estado ST_PENDING) && negb (Str.eqb estado ST_REVIEW)
     then sendEmailSafe_ email ("Request " ++ estado) ;;; ret tt
     else ret tt).

(* ------------------------------------------------------------------ *)
(** ** Row processing *)

Definition em_dash : string :=
  String (ascii_of_nat 226) (String (ascii_of_nat 128) (String (ascii_of_nat 148) EmptyString)).

Definition present (d : option Z) : bool := match d with Some _ => true | None => false end.

(** How far the [try] block of [processRequestRow_] got before the manager
    notification: stopped (invalid data) or with the requester's mail
    outcome and the composed manager subject ([""] when none). *)
Inductive prr_stage := PrrStop | PrrGo (userNotified : mail_res) (subjectManager : string).

(** Lines 500-574 of [processRequestRow_]. *)
Definition prr_classify (row : Z) : M prr_stage :=
  estado <- get_cell row r_status ;;
  (if negb (Str.truthy estado) then set_cell row (with_status ST_PENDING) else ret tt) ;;;
  email <- get_cell row r_email ;;
  empleado <- get_cell row r_emp ;;
  ini <- get_cell row r_start ;;
  fin <- get_cell row r_end ;;
  team0 <- getEmployeeTeam_ (Str.trim empleado) ;;
  let team := if Str.truthy team0 then team0 else em_dash in
  let isValid := Str.truthy empleado && present ini && present fin && le_t ini fin in
  if negb isValid then set_cell row (with_note "Invalid Data") ;;; ret PrrStop else
  let dias := countBusinessDays_ ini fin in
  set_cell row (with_days dias) ;;;
  teamOverlap <- hasTeamOverlapPendingOrApproved_ empleado ini fin row ;;
  selfOverlap <- hasOverlapPendingOrApprovedSameEmployee_ empleado ini fin row ;;
  match teamOverlap with
  | Some h =>
      set_cell row (with_status ST_REVIEW) ;;;
      set_cell row (with_note ("Conflict with " ++ th_emp h ++ " (" ++ th_estado h ++ ")")) ;;;
      u <- (if Str.truthy email then sendEmailSafe_ email "Request Under Review" else ret mail_none) ;;
      ret (PrrGo u ("[Vacation] Conflict - " ++ empleado ++ " (" ++ team ++ ")"))
  | None =>
      match selfOverlap with
      | Some _ =>
          set_cell row (with_status ST_REVIEW) ;;;
          set_cell row (with_note "Duplicate Request") ;;;
          ret (PrrGo mail_none "")
      | None =>
          u <- (if Str.truthy email then sendEmailSafe_ email "Request Received" else ret mail_none) ;;
          ret (PrrGo u ("[Vacation] New Request - " ++ empleado))
      end
  end.

(** [processRequestRow_(sheet, row)].  The source has one [try] block whose
    [catch] only logs, followed by [return { userNotified, managersNotified }]
    with whatever the two [let] variables held at the throw; the block is
    cut at the two assignments so that each [catch] returns those values. *)
Definition processRequestRow_ (row : Z) : M (mail_res * mail_res) :=
  modify (log EvRowProcessing) ;;;
  stage <- catch (prr_classify row) (fun _ => ret PrrStop) ;;
  match stage with
  | PrrStop => ret (mail_none, mail_none)
  | PrrGo u subjectManager =>
      catch
        (m <- (if Str.truthy subjectManager
               then notifyManagersCompact_ subjectManager else ret mail_none) ;;
         catch (recalcEmpleados_ ;;; sortSolicitudesByFechaInicio_ ;;; ret (u, m))
               (fun _ => ret (u, m)))
        (fun _ => ret (u, mail_none))
  end.

(* ------------------------------------------------------------------ *)
(** ** Configuration, rate limiting and the script lock *)

Definition ENFORCE_BALANCE_BEFORE_EVENT : bool := true.
Definition MIN_ADVANCE_DAYS : Z := 0.
Definition ENFORCE_MIN_ADVANCE_DAYS : bool := false.

(** [RATE_LIMITS[action]] as (max, window in seconds). *)
Definition RATE_LIMITS (action : string) : option (Z * Z) :=
  if Str.eqb action "create_request" then Some (5, 3600)
  else if Str.eqb action "cancel_request" then Some (3, 3600)
  else if Str.eqb action "edit_request" then Some (10, 3600)
  else None.

(** [checkRateLimit_(userEmail, action)]; entries of the user cache are kept
    for the window, whose expiry is not modelled. *)
Definition checkRateLimit_ (userEmail action : string) : M unit :=
  fun s =>
    let key := "ratelimit_" ++ action ++ "_" ++ userEmail in
    let count := default 0 (st_rl s !! key) in
    match RATE_LIMITS action with
    | None => (Ok tt, s)
    | Some (mx, window) =>
        if mx <=? count then (Err (E_RateLimit ((window + 59) / 60)), s)
        else (Ok tt, set_rl (<[key := count + 1]> (st_rl s)) s)
    end.

(** [lock.waitLock(timeout)]: times out when another invocation holds the
    lock. *)
Definition waitLock : M unit :=
  fun s => if st_lock_busy s then (Err E_Busy, s)
           else (Ok tt, log EvAcquire (set_lock true s)).

(** [lock.releaseLock()] *)
Definition releaseLock : M unit :=
  fun s => (Ok tt, log EvRelease (set_lock false s)).

(* ------------------------------------------------------------------ *)
(** ** Endpoints.  [userEmail] is [Session.getActiveUser().getEmail()];
    dates arrive already parsed by [parseDateToNoon_]; [today] is the
    current day and [now] the submission timestamp. *)

(** [apiCreateRequest(startDate, endDate)] returns [{ success, emailStatus }]. *)
Definition apiCreateRequest (userEmail : string) (now today startDate endDate : Z)
    : M (bool * (mail_res * mail_res)) :=
  checkRateLimit_ userEmail "create_request" ;;;
  waitLock ;;;
  finally
    (catch
       (nombre0 <- _buscarNombrePorEmail userEmail ;;
        let nombreEmpleado := if Str.truthy nombre0 then nombre0 else userEmail in
        let startObj := Some startDate in
        let endObj := Some endDate in
        if startDate <? today then throw E_PastDate else
        (if ENFORCE_MIN_ADVANCE_DAYS && (0 <? MIN_ADVANCE_DAYS)
         then (if startDate - today <? MIN_ADVANCE_DAYS then throw E_MinAdvance else ret tt)
         else ret tt) ;;;
        conflict <- hasOverlapPendingOrApprovedSameEmployee_ nombreEmpleado startObj endObj (-1) ;;
        match conflict with
        | Some _ => throw E_Duplicate
        | None =>
            _getDb ;;;
            touch T_Requests ;;;
            modify (set_reqs (fun rs => app rs [mkReq now userEmail nombreEmpleado startObj endObj
                                                   ST_PENDING 0 "" ""])) ;;;
            storage_op ;;;   (* SpreadsheetApp.flush() *)
            touch T_Requests ;;;
            newRowIndex <- gets (fun s => Z.of_nat (length (st_reqs s)) + 1) ;;
            result <- processRequestRow_ newRowIndex ;;
            logAudit_ ;;;
            ret (true, result)
        end)
       (fun e => throw e))
    releaseLock.

(** [apiProcessRequest(rowId, action)] returns [{ success: true }]. *)
Definition apiProcessRequest (userEmail : string) (rowId : Z) (action : string) : M bool :=
  managers <- getManagerEmails_ ;;
  if negb (bool_decide (userEmail ∈ managers)) then throw E_Unauthorized else
  _getDb ;;;
  empleado <- get_cell rowId r_emp ;;
  dias <- get_cell rowId r_days ;;
  prevEstado <- get_cell rowId r_status ;;
  (if Str.eqb action ST_APPROVED && ENFORCE_BALANCE_BEFORE_EVENT then
     totals <- getEmployeeTotals_ empleado ;;
     let newRemaining := t_remaining totals - dias in
     if newRemaining <? 0 then throw (E_Insufficient (t_remaining totals) dias) else ret tt
   else ret tt) ;;;
  set_cell rowId (with_status action) ;;;
  handleEstadoChange_ rowId prevEstado ;;;
  recalcEmpleados_ ;;;
  logAudit_ ;;;
  ret true.

(** The ownership loop of [apiCancelRequest]: [found] and [status]. *)
Fixpoint cancel_lookup (userEmail : string) (rowId i : Z) (rows : list Req) : bool * string :=
  match rows with
  | [] => (false, "")
  | q :: rest =>
      if i + 1 =? rowId
      then (Str.eqb (Str.lower (Str.trim (r_email q))) (Str.lower userEmail), r_status q)
      else cancel_lookup userEmail rowId (i + 1) rest
  end.

(** [apiCancelRequest(rowId)] returns [{ success: true }]. *)
Definition apiCancelRequest (userEmail : string) (rowId : Z) : M bool :=
  checkRateLimit_ userEmail "cancel_request" ;;;
  waitLock ;;;
  finally
    (catch
       (_getDb ;;;
        data <- get_all_reqs ;;
        let '(found, status) := cancel_lookup userEmail rowId 1 data in
        if negb found then throw E_NotFound else
        if negb (Str.eqb status ST_PENDING) && negb (Str.eqb status ST_REVIEW)
        then throw (E_CannotCancel status) else
        set_cell rowId (with_status ST_CANCELLED) ;;;
        eventId <- get_cell rowId r_event ;;
        (if Str.truthy eventId then
           catch (getCalendar_ ;;;
                  ev <- getEventById eventId ;;
                  (match ev with Some _ => deleteEvent eventId | None => ret tt end) ;;;
                  set_cell rowId (with_event ""))
                 (fun _ => ret tt)
         else ret tt) ;;;
        recalcEmpleados_ ;;;
        logAudit_ ;;;
        ret true)
       (fun e => throw e))
    releaseLock.

(** [apiEditRequest(rowId, startDate, endDate)] returns [{ success: true }].
    The ownership, status, date and overlap checks announced by its comment
    are not in the source. *)
Definition apiEditRequest (userEmail : string) (rowId startDate endDate : Z) : M bool :=
  checkRateLimit_ userEmail "edit_request" ;;;
  waitLock ;;;
  finally
    (catch
       (_getDb ;;;
        let startObj := Some startDate in
        let endObj := Some endDate in
        set_cell rowId (with_start startObj) ;;;
        set_cell rowId (with_end endObj) ;;;
        set_cell rowId (with_status ST_PENDING) ;;;
        processRequestRow_ rowId ;;;
        logAudit_ ;;;
        ret true)
       (fun e => throw e))
    releaseLock.


(* ------------------------------------------------------------------ *)
(** ** Readings of the claims and proof-side helpers *)

(** The claim's reading of a business day and of the count over a closed
    range. *)
Definition is_weekday (d : Z) : bool := negb (getDay d =? 0) && negb (getDay d =? 6).

Definition days_in (s e : Z) : list Z :=
  map (fun k => s + Z.of_nat k) (seq 0 (Z.to_nat (e - s + 1))).

Definition business_count (s e : Z) : Z := Z.of_nat (length (List.filter is_weekday (days_in s e))).

(** The count of [n] consecutive days from [cur], one step of the loop at a
    time. *)
Fixpoint bc (cur : Z) (n : nat) : Z :=
  match n with
  | O => 0
  | S n' => (if is_weekday cur then 1 else 0) + bc (cur + 1) n'
  end.

(** The test a row passes to be reported by the scan (sheet row [k]). *)
Definition self_hit (empSearch : string) (s0 e0 : option Z) (currentRow k : Z) (q : Req) : bool :=
  negb (k =? currentRow) && Str.eqb (Str.trim (r_emp q)) empSearch
  && active_for_overlap (r_status q) && (le_t s0 (r_end q) && le_t (r_start q) e0).

(** A row the scan reports, as the code filters it: another sheet row, the
    same trimmed requester, status [Pendiente] or containing [Aprobado], and
    a closed-interval overlap with the candidate range. *)
Definition self_conflict (empleado : string) (s0 e0 : option Z) (currentRow k : Z) (q : Req) : Prop :=
  k <> currentRow /\ Str.trim (r_emp q) = Str.trim empleado
  /\ (r_status q = ST_PENDING \/ Str.includes "Aprobado" (r_status q) = true)
  /\ le_t s0 (r_end q) = true /\ le_t (r_start q) e0 = true.

Definition st_empty : St :=
  mkSt [] [] false [] ∅ 0 false [] false ∅ false false None [].


(** A request of 5 business days for an employee with 2 days left. *)
Definition st_c4 : St :=
  mkSt [mkReq 0 "ana@x.com" "Ana" (Some 20150) (Some 20154) ST_PENDING 5 "" ""]
       [mkEmp "Ana" "ana@x.com" "T1" 2 0 0] false ["m@x.com"] ∅ 0 false [] false ∅
       false false None [].

(** The title [handleEstadoChange_] gives the event of an approved request. *)
Definition approved_title (estado empleado : string) : string :=
  if Str.eqb estado ST_APPROVED_EXC then "Vacations (EXCEPTION): " ++ empleado
  else "Vacations: " ++ empleado.

(** A computation that cannot throw. *)
Definition never_throws {A} (m : M A) : Prop :=
  forall s, exists a, fst (m s) = Ok a.

(** A computation that does not itself enter [processRequestRow_]. *)
Definition marker_free {A} (m : M A) : Prop :=
  forall s, EvRowProcessing ∈ st_trace (snd (m s)) -> EvRowProcessing ∈ st_trace s.

(** Once [processRequestRow_] has been entered during a run of [m], the run
    returns normally with a result satisfying [P]. *)
Definition ok_after_row_processing {A} (P : A -> Prop) (m : M A) : Prop :=
  forall s, EvRowProcessing ∉ st_trace s -> EvRowProcessing ∈ st_trace (snd (m s)) ->
    exists a, fst (m s) = Ok a /\ P a.

(** A state whose storage fails at its 13th call, while the row just
    appended by [apiCreateRequest] is being processed. *)
Definition st_c10 (k : nat) : St :=
  mkSt [] [mkEmp "Ana" "ana@x.com" "T1" 10 0 10] false ["m@x.com"] ∅ 0 false [] false ∅
       false false (Some k) [].

(** Sheet row 2: an approved request of Ana's with its calendar event; the
    calendar answers unless [cal_fault]. *)
Definition row_ana (status : string) : Req :=
  mkReq 0 "ana@x.com" "Ana" (Some 20150) (Some 20154) status 5 "ev0" "".

Definition st_row (status : string) (cal_fault : bool) : St :=
  mkSt [row_ana status] [mkEmp "Ana" "ana@x.com" "T1" 10 5 5] false ["m@x.com"]
       (<["ev0" := mkEvent "Vacations: Ana" 20150 20155]> ∅) 1 cal_fault [] false ∅
       false false None [].

(* ------------------------------------------------------------------ *)
(** ** The manager list, read from its sheet *)

(** [.filter(x => x && (uniq[x] ? false : (uniq[x] = true)))] with the
    object [uniq]: [seen] holds the keys assigned so far. *)
Fixpoint uniq_filter (seen : gset string) (xs : list string) : list string :=
  match xs with
  | [] => []
  | x :: rest =>
      if Str.truthy x && negb (bool_decide (x ∈ seen)) && negb (bool_decide (x ∈ object_proto_keys))
      then x :: uniq_filter ({[x]} ∪ seen) rest
      else uniq_filter seen rest
  end.

(** The sheet path of [getManagerEmails_()]: column A of the rows from 2 on,
    [vals.map(r => String(r[0]).trim())] and the filter above (with no data
    row the list is empty, as the early [return []]). *)
Definition managers_of_column (vals : list string) : list string :=
  uniq_filter ∅ (map Str.trim vals).

(* ------------------------------------------------------------------ *)
(** ** Read endpoints: [getInitialData] and [getDashboardData] *)

(** Errors of the read endpoints: [User not identified], a failure of a
    service call, and [getInitialData]'s re-thrown [Backend Error: ...]. *)
Inductive read_error :=
| RE_NoUser
| RE_Backend (e : error)
| RE_Wrapped (inner : read_error).

(** The object returned by [getInitialData()]. *)
Record InitData := mkInitData {
  in_email : string; in_role : string; in_team : string;
  in_total : Z; in_used : Z; in_remaining : Z
}.

(** [getInitialData()] *)
Definition getInitialData (userEmail : string) (s : St) : read_error + InitData :=
  if negb (Str.truthy userEmail) then inl (RE_Wrapped RE_NoUser) else
  match fst ((totals <- getEmployeeTotals_ userEmail ;;
              team <- getEmployeeTeam_ userEmail ;;
              managers <- getManagerEmails_ ;;
              ret (totals, team, managers)) s) with
  | Err e => inl (RE_Wrapped (RE_Backend e))
  | Ok (totals, team, managers) =>
      inr (mkInitData userEmail
             (if bool_decide (userEmail ∈ managers) then "manager" else "agent")
             (if Str.truthy team then team else "General")
             (t_total totals) (t_usados totals) (t_remaining totals))
  end.

(** [empData] of the dashboard's employee map. *)
Record EmpData := mkEmpData { ed_team : string; ed_saldoHR : Z; ed_usados : Z; ed_remaining : Z }.

(** An entry of [myRequests] ([days] is the raw cell). *)
Record MyReq := mkMyReq { my_id : Z; my_start : string; my_end : string; my_status : string; my_days : Z }.

(** A [requestObj] of the manager views. *)
Record MgrReq := mkMgrReq {
  mr_id : Z; mr_employee : string; mr_team : string; mr_email : string;
  mr_start : string; mr_end : string; mr_status : string; mr_days : Z
}.

(** The object returned by [getDashboardData()]. *)
Record Dashboard := mkDashboard {
  db_email : string; db_role : string; db_team : string;
  db_total : Z; db_used : Z; db_remaining : Z;
  db_requests : list MyReq; db_pending : list MgrReq; db_all : list MgrReq
}.

Section Dashboard.

(** [_safeDate] on a non-empty date cell ([new Date(d).toISOString()]),
    which depends on the script's time zone. *)
Variable iso_of_day : Z -> string.

(** [_safeDate(d)]: an empty cell gives [""]. *)
Definition _safeDate (d : option Z) : string :=
  match d with None => "" | Some z => iso_of_day z end.

(** One iteration of the employee loop: [colF] says whether the data range
    has a column F ([dataEmpleados[j][5] !== undefined]).  Both maps are
    plain objects keyed by the lowercased trimmed name and email; the gmaps
    hold their assignments, so a lookup in them gives what [obj[k]] reads in
    the source for every key [k] that is not a property name of
    [Object.prototype] (an assignment to [__proto__] or a read of an
    inherited name is not what a gmap does; the theorems that read these
    maps exclude such keys by hypothesis). *)
Definition emp_entry (colF : bool) (m : gmap string EmpData * gmap string string) (e : Emp)
    : gmap string EmpData * gmap string string :=
  let name := Str.lower (Str.trim (e_name e)) in
  let email := Str.lower (Str.trim (e_email e)) in
  let d := mkEmpData (e_team e) (e_saldoHR e) (e_usados e)
             (if colF then e_saldoVac e else e_saldoHR e - e_usados e) in
  (<[email := d]> (<[name := d]> m.1), <[email := e_team e]> (<[name := e_team e]> m.2)).

Definition emp_maps (colF : bool) (es : list Emp) : gmap string EmpData * gmap string string :=
  fold_left (emp_entry colF) es (∅, ∅).

Definition valid_state (status : string) : bool :=
  bool_decide (status ∈ [ST_APPROVED; ST_APPROVED_EXC; ST_PENDING; ST_REVIEW]).

(** The request loop from [i] on: the three arrays, each in push order. *)
Fixpoint dash_rows (userKey : string) (isManager : bool) (teamMap : gmap string string)
    (i : Z) (rows : list Req) : list MyReq * list MgrReq * list MgrReq :=
  match rows with
  | [] => ([], [], [])
  | q :: rest =>
      let '(my, pend, all) := dash_rows userKey isManager teamMap (i + 1) rest in
      let email := Str.lower (Str.trim (r_email q)) in
      let empleado := r_emp q in
      let startDate := _safeDate (r_start q) in
      let endDate := _safeDate (r_end q) in
      let status := r_status q in
      let my' := if Str.eqb email userKey
                 then mkMyReq (i + 1) startDate endDate status (r_days q) :: my else my in
      if isManager then
        let empKey := Str.lower (Str.trim empleado) in
        let team := match teamMap !! empKey with
                    | Some t => if Str.truthy t then t else em_dash
                    | None => em_dash
                    end in
        let o := mkMgrReq (i + 1) empleado team email startDate endDate status (r_days q) in
        (my',
         if Str.eqb status ST_PENDING || Str.eqb status ST_REVIEW then o :: pend else pend,
         if valid_state status then o :: all else all)
      else (my', pend, all)
  end.

(** The body of [getDashboardData()] after the two sheet reads. *)
Definition dashboard_of (colF : bool) (userEmail : string) (managers : list string)
    (es : list Emp) (rs : list Req) : Dashboard :=
  let '(empleadoMap, teamMap) := emp_maps colF es in
  let userKey := Str.lower userEmail in
  let userStats := default (mkEmpData "" 0 0 0) (empleadoMap !! userKey) in
  let userTeam := match teamMap !! userKey with
                  | Some t => if Str.truthy t then t else "General"
                  | None => "General"
                  end in
  let isManager := bool_decide (userEmail ∈ managers) in
  let '(my, pend, all) := dash_rows userKey isManager teamMap 1 rs in
  mkDashboard userEmail (if isManager then "manager" else "agent") userTeam
    (ed_saldoHR userStats) (ed_usados userStats) (ed_remaining userStats)
    (rev my) pend all.

(** [getDashboardData()] *)
Definition getDashboardData (colF : bool) (userEmail : string) (s : St) : read_error + Dashboard :=
  if negb (Str.truthy userEmail) then inl RE_NoUser else
  match fst ((_getDb ;;;
              touch T_Requests ;;; dataSolicitudes <- gets st_reqs ;;
              touch T_Employees ;;; dataEmpleados <- gets st_emps ;;
              managers <- getManagerEmails_ ;;
              ret (dataSolicitudes, dataEmpleados, managers)) s) with
  | Err e => inl (RE_Backend e)
  | Ok (rs, es, managers) => inr (dashboard_of colF userEmail managers es rs)
  end.

End Dashboard.

(** Readings of the dashboard: the data rows with their sheet row numbers,
    the entries built from a row, and the employee rows a lookup key
    matches. *)
Fixpoint numbered (i : Z) (rows : list Req) : list (Z * Req) :=
  match rows with
  | [] => []
  | q :: rest => (i, q) :: numbered (i + 1) rest
  end.

Definition is_pending_or_review (status : string) : bool :=
  Str.eqb status ST_PENDING || Str.eqb status ST_REVIEW.

Definition emp_matches (key : string) (e : Emp) : bool :=
  Str.eqb (Str.lower (Str.trim (e_name e))) key || Str.eqb (Str.lower (Str.trim (e_email e))) key.

Definition ed_of (colF : bool) (e : Emp) : EmpData :=
  mkEmpData (e_team e) (e_saldoHR e) (e_usados e)
    (if colF then e_saldoVac e else e_saldoHR e - e_usados e).

Section DashboardReadings.
Variable iso_of_day : Z -> string.

Definition my_view (p : Z * Req) : MyReq :=
  mkMyReq p.1 (_safeDate iso_of_day (r_start p.2)) (_safeDate iso_of_day (r_end p.2))
    (r_status p.2) (r_days p.2).

Definition mgr_view (teamMap : gmap string string) (p : Z * Req) : MgrReq :=
  mkMgrReq p.1 (r_emp p.2)
    (match teamMap !! Str.lower (Str.trim (r_emp p.2)) with
     | Some t => if Str.truthy t then t else em_dash
     | None => em_dash
     end)
    (Str.lower (Str.trim (r_email p.2)))
    (_safeDate iso_of_day (r_start p.2)) (_safeDate iso_of_day (r_end p.2))
    (r_status p.2) (r_days p.2).

End DashboardReadings.

(** A row the team scan of [hasTeamOverlapPendingOrApproved_] reports, in
    the order of its tests: another sheet row, status [Pendiente] or
    containing [Aprobado], a non-empty trimmed requester other than the
    argument as passed, whose team (by [getEmployeeTeam_]) is non-empty and
    equal to [team], and a closed-interval overlap. *)
Definition team_hit (es : list Emp) (empleado team : string) (s0 e0 : option Z)
    (currentRow k : Z) (q : Req) : bool :=
  let emp2 := Str.trim (r_emp q) in
  let team2 := find_team (Str.lower (Str.trim emp2)) es in
  negb (k =? currentRow) && active_for_overlap (r_status q)
  && Str.truthy emp2 && negb (Str.eqb emp2 empleado)
  && Str.truthy team2 && Str.eqb team2 team
  && le_t s0 (r_end q) && le_t (r_start q) e0.

(** [start_le] is a total preorder, so [merge_sort] sorts by it. *)
#[local] Instance start_le_total : Total start_le.
Proof.
  intros a b. unfold start_le, start_leb.
  destruct (r_start a) as [x|], (r_start b) as [y|]; auto.
  destruct (Z.leb_spec x y); [left; reflexivity|right; apply Z.leb_le; lia].
Qed.

#[local] Instance start_le_trans : Transitive start_le.
Proof.
  intros a b c. unfold start_le, start_leb.
  destruct (r_start a) as [x|], (r_start b) as [y|], (r_start c) as [z|]; auto;
    try discriminate.
  rewrite !Z.leb_le. lia.
Qed.

(* ================================================================== *)
(** * Theorems *)


(** ** Business days *)

Lemma count_loop_bc e n : forall cur c,
  cur + Z.of_nat n - 1 <= e -> count_loop n cur e c = c + bc cur n.
Proof.
  induction n as [|n IH]; intros cur c Hle; simpl.
  - lia.
  - assert (Hc : (cur <=? e) = true) by (apply Z.leb_le; lia).
    rewrite Hc. rewrite IH by lia. unfold is_weekday.
    destruct (negb (getDay cur =? 0) && negb (getDay cur =? 6)); lia.
Qed.

Lemma map_seq_shift (cur : Z) (n : nat) :
  map (fun k => cur + Z.of_nat k) (seq 1 n) = map (fun k => (cur + 1) + Z.of_nat k) (seq 0 n).
Proof.
  rewrite <- seq_shift, map_map. apply map_ext. intros k. lia.
Qed.

Lemma bc_filter cur n :
  bc cur n = Z.of_nat (length (List.filter is_weekday (map (fun k => cur + Z.of_nat k) (seq 0 n)))).
Proof.
  revert cur. induction n as [|n IH]; intros cur; [reflexivity|].
  cbn [seq map bc]. rewrite map_seq_shift, IH.
  replace (cur + Z.of_nat 0) with cur by lia.
  cbn [List.filter]. destruct (is_weekday cur); cbn [length]; lia.
Qed.

Lemma bc_app cur n m : bc cur (n + m) = bc cur n + bc (cur + Z.of_nat n) m.
Proof.
  revert cur. induction n as [|n IH]; intros cur; simpl.
  - replace (cur + Z.of_nat 0) with cur by lia. lia.
  - rewrite IH. replace (cur + 1 + Z.of_nat n) with (cur + Z.of_nat (S n)) by lia.
    lia.
Qed.

Lemma bc_nonneg cur n : 0 <= bc cur n.
Proof.
  revert cur. induction n as [|n IH]; intros cur; simpl; [lia|].
  specialize (IH (cur + 1)). destruct (is_weekday cur); lia.
Qed.

Lemma countBusinessDays_bc s e :
  s <= e -> countBusinessDays_ (Some s) (Some e) = bc s (Z.to_nat (e - s + 1)).
Proof.
  intros H. unfold countBusinessDays_.
  assert (Hn : (e <? s) = false) by (apply Z.ltb_ge; lia). rewrite Hn.
  rewrite count_loop_bc by lia. lia.
Qed.

Lemma countBusinessDays_nonneg a b : 0 <= countBusinessDays_ a b.
Proof.
  destruct a as [s|], b as [e|]; simpl; try lia.
  destruct (Z.ltb_spec e s); [lia|].
  rewrite count_loop_bc by lia. pose proof (bc_nonneg s (Z.to_nat (e - s + 1))). lia.
Qed.

Lemma getDay_add d k : getDay (d + k) = (getDay d + k) mod 7.
Proof. unfold getDay. rewrite Zplus_mod_idemp_l. f_equal. lia. Qed.

Lemma bc_week d : getDay d = 1 -> bc d 7 = 5.
Proof.
  intros H. cbn [bc]. unfold is_weekday.
  repeat rewrite <- Z.add_assoc. rewrite !getDay_add, H. reflexivity.
Qed.

Lemma countBusinessDays_mono s s' e e' :
  s' <= s -> e <= e' ->
  countBusinessDays_ (Some s) (Some e) <= countBusinessDays_ (Some s') (Some e').
Proof.
  intros Hs He. destruct (Z.ltb_spec e s) as [Hlt|Hge].
  - unfold countBusinessDays_ at 1. apply Z.ltb_lt in Hlt. rewrite Hlt.
    apply countBusinessDays_nonneg.
  - rewrite !countBusinessDays_bc by lia.
    replace (Z.to_nat (e' - s' + 1))
      with ((Z.to_nat (s - s') + Z.to_nat (e - s + 1)) + Z.to_nat (e' - e))%nat by lia.
    rewrite !bc_app.
    replace (s' + Z.of_nat (Z.to_nat (s - s'))) with s by lia.
    pose proof (bc_nonneg s' (Z.to_nat (s - s'))).
    pose proof (bc_nonneg (s' + Z.of_nat (Z.to_nat (s - s') + Z.to_nat (e - s + 1)))
                          (Z.to_nat (e' - e))).
    lia.
Qed.

(** C5: [countBusinessDays_] is 0 on a reversed range and otherwise counts
    the days of the closed range [start, end] that are neither Saturday nor
    Sunday; one weekday counts 1, a Monday-to-Sunday week counts 5, and the
    count does not decrease when the range widens. *)

Theorem countBusinessDays_spec :
  (forall s e, countBusinessDays_ (Some s) (Some e) =
               if e <? s then 0 else business_count s e)
  /\ (forall d, is_weekday d = true -> countBusinessDays_ (Some d) (Some d) = 1)
  /\ (forall d, getDay d = 1 -> countBusinessDays_ (Some d) (Some (d + 6)) = 5)
  /\ (forall s s' e e', s' <= s -> e <= e' ->
        countBusinessDays_ (Some s) (Some e) <= countBusinessDays_ (Some s') (Some e')).
Proof.
  split; [|split; [|split]].
  - intros s e. destruct (Z.ltb_spec e s) as [Hlt|Hge].
    + unfold countBusinessDays_. apply Z.ltb_lt in Hlt. now rewrite Hlt.
    + rewrite countBusinessDays_bc by lia. unfold business_count, days_in.
      apply bc_filter.
  - intros d Hd. rewrite countBusinessDays_bc by lia.
    replace (Z.to_nat (d - d + 1)) with 1%nat by lia. simpl. rewrite Hd. reflexivity.
  - intros d Hd. rewrite countBusinessDays_bc by lia.
    replace (Z.to_nat (d + 6 - d + 1)) with 7%nat by lia. now apply bc_week.
  - apply countBusinessDays_mono.
Qed.

Lemma countBusinessDays_spec_witness :
  is_weekday 20150 = true /\ countBusinessDays_ (Some 20150) (Some 20150) = 1
  /\ getDay 20150 = 1 /\ countBusinessDays_ (Some 20150) (Some 20156) = 5
  /\ countBusinessDays_ (Some 20150) (Some 20154) <= countBusinessDays_ (Some 20149) (Some 20160).
Proof.
  destruct countBusinessDays_spec as (_ & H1 & H2 & H3).
  split; [reflexivity|]. split; [apply H1; reflexivity|].
  split; [reflexivity|]. split; [apply (H2 20150); reflexivity|].
  apply H3; lia.
Defined.

(** ** Same-employee overlap *)

Lemma Str_eqb_spec a b : Str.eqb a b = true <-> a = b.
Proof. unfold Str.eqb. destruct (decide (a = b)); split; congruence. Qed.

Lemma active_for_overlap_spec est :
  active_for_overlap est = true <-> est = ST_PENDING \/ Str.includes "Aprobado" est = true.
Proof.
  unfold active_for_overlap. rewrite negb_andb, !negb_involutive, orb_true_iff, Str_eqb_spec.
  tauto.
Qed.

Lemma self_scan_cons E s0 e0 cur r q rest :
  self_scan E s0 e0 cur r (q :: rest) =
  if self_hit E s0 e0 cur (r + 1) q then Some (r + 1, r_status q)
  else self_scan E s0 e0 cur (r + 1) rest.
Proof.
  unfold self_hit. simpl.
  destruct (r + 1 =? cur); simpl; [reflexivity|].
  destruct (Str.eqb (Str.trim (r_emp q)) E); simpl; [|reflexivity].
  destruct (active_for_overlap (r_status q)); simpl; reflexivity.
Qed.

Lemma self_scan_spec E s0 e0 cur rows : forall r,
  match self_scan E s0 e0 cur r rows with
  | Some (k, est) =>
      exists j q, rows !! j = Some q /\ k = r + 1 + Z.of_nat j /\ est = r_status q
        /\ self_hit E s0 e0 cur k q = true
        /\ forall j' q', (j' < j)%nat -> rows !! j' = Some q' ->
             self_hit E s0 e0 cur (r + 1 + Z.of_nat j') q' = false
  | None => forall j q, rows !! j = Some q -> self_hit E s0 e0 cur (r + 1 + Z.of_nat j) q = false
  end.
Proof.
  induction rows as [|q rest IH]; intros r.
  - simpl. intros j q H. rewrite lookup_nil in H. discriminate.
  - rewrite self_scan_cons. destruct (self_hit E s0 e0 cur (r + 1) q) eqn:Hh.
    + exists 0%nat, q. split; [reflexivity|]. split; [lia|]. split; [reflexivity|].
      split; [replace (r + 1 + Z.of_nat 0) with (r + 1) by lia; exact Hh|].
      intros j' q' Hj'. lia.
    + specialize (IH (r + 1)).
      destruct (self_scan E s0 e0 cur (r + 1) rest) as [[k est]|].
      * destruct IH as (j & q1 & Hj & Hk & Hest & Hhit & Hfirst).
        exists (S j), q1. split; [exact Hj|]. split; [lia|]. split; [exact Hest|].
        split; [exact Hhit|].
        intros j' q' Hlt Hj'. destruct j' as [|j'].
        -- simpl in Hj'. injection Hj' as <-. replace (r + 1 + Z.of_nat 0) with (r + 1) by lia.
           exact Hh.
        -- simpl in Hj'. replace (r + 1 + Z.of_nat (S j')) with (r + 1 + 1 + Z.of_nat j') by lia.
           apply (Hfirst j'); [lia|exact Hj'].
      * intros j q1 Hj. destruct j as [|j].
        -- simpl in Hj. injection Hj as <-. replace (r + 1 + Z.of_nat 0) with (r + 1) by lia.
           exact Hh.
        -- simpl in Hj. replace (r + 1 + Z.of_nat (S j)) with (r + 1 + 1 + Z.of_nat j) by lia.
           exact (IH j q1 Hj).
Qed.

Lemma req_at_lookup k (rs : list Req) q :
  req_at k rs = Some q <-> exists j, k = 2 + Z.of_nat j /\ rs !! j = Some q.
Proof.
  unfold req_at. split.
  - destruct (Z.leb_spec 2 k) as [H|H]; [|discriminate].
    intros Hq. exists (Z.to_nat (k - 2)). split; [lia|exact Hq].
  - intros (j & -> & Hj). replace (2 <=? 2 + Z.of_nat j) with true by (symmetry; apply Z.leb_le; lia).
    replace (Z.to_nat (2 + Z.of_nat j - 2)) with j by lia. exact Hj.
Qed.

Lemma hasOverlapPendingOrApprovedSameEmployee_run st emp s0 e0 cur :
  st_db_fuel st = None ->
  fst (hasOverlapPendingOrApprovedSameEmployee_ emp s0 e0 cur st)
  = Ok (self_scan (Str.trim emp) s0 e0 cur 1 (st_reqs st)).
Proof.
  intros H. unfold hasOverlapPendingOrApprovedSameEmployee_, get_all_reqs, touch, _getDb,
    storage_op, bind, gets, ret. simpl. rewrite H. simpl. rewrite H. reflexivity.
Qed.

Lemma self_hit_spec emp s0 e0 cur k q :
  self_hit (Str.trim emp) s0 e0 cur k q = true <-> self_conflict emp s0 e0 cur k q.
Proof.
  unfold self_hit, self_conflict.
  rewrite !andb_true_iff, negb_true_iff, Z.eqb_neq, Str_eqb_spec, active_for_overlap_spec.
  tauto.
Qed.

(** C1 (as amended): with the storage reachable, the same-employee scan
    reports the first sheet row (in sheet order) that is another row than
    [currentRow], has the same trimmed requester, has status [Pendiente] or
    one containing [Aprobado], and overlaps the candidate range as closed
    intervals; it reports nothing when no row does.  Rows in
    [Necesita Revision] are not considered. *)

Theorem hasOverlapPendingOrApprovedSameEmployee_first_match st emp s0 e0 cur :
  st_db_fuel st = None ->
  match fst (hasOverlapPendingOrApprovedSameEmployee_ emp s0 e0 cur st) with
  | Ok (Some (k, est)) =>
      exists q, req_at k (st_reqs st) = Some q /\ est = r_status q
        /\ self_conflict emp s0 e0 cur k q
        /\ forall k' q', k' < k -> req_at k' (st_reqs st) = Some q' ->
             ~ self_conflict emp s0 e0 cur k' q'
  | Ok None => forall k q, req_at k (st_reqs st) = Some q -> ~ self_conflict emp s0 e0 cur k q
  | Err _ => False
  end.
Proof.
  intros H. rewrite hasOverlapPendingOrApprovedSameEmployee_run by exact H.
  pose proof (self_scan_spec (Str.trim emp) s0 e0 cur (st_reqs st) 1) as Hs.
  destruct (self_scan (Str.trim emp) s0 e0 cur 1 (st_reqs st)) as [[k est]|].
  - destruct Hs as (j & q & Hj & Hk & Hest & Hhit & Hfirst).
    exists q. split; [apply req_at_lookup; exists j; split; [lia|exact Hj]|].
    split; [exact Hest|]. split; [apply self_hit_spec; exact Hhit|].
    intros k' q' Hlt Hq' Hc. apply req_at_lookup in Hq' as (j' & -> & Hj').
    apply self_hit_spec in Hc.
    replace (2 + Z.of_nat j') with (1 + 1 + Z.of_nat j') in Hc by lia.
    rewrite (Hfirst j' q') in Hc; [discriminate|lia|exact Hj'].
  - intros k q Hq Hc. apply req_at_lookup in Hq as (j & -> & Hj).
    apply self_hit_spec in Hc.
    replace (2 + Z.of_nat j) with (1 + 1 + Z.of_nat j) in Hc by lia.
    rewrite (Hs j q Hj) in Hc. discriminate.
Qed.

Lemma hasOverlapPendingOrApprovedSameEmployee_first_match_witness :
  st_db_fuel (set_reqs (fun _ => [mkReq 0 "ana@x.com" "Ana" (Some 20150) (Some 20154)
                                    ST_PENDING 5 "" ""]) st_empty) = None
  /\ match fst (hasOverlapPendingOrApprovedSameEmployee_ "Ana" (Some 20152) (Some 20160) (-1)
           (set_reqs (fun _ => [mkReq 0 "ana@x.com" "Ana" (Some 20150) (Some 20154)
                                  ST_PENDING 5 "" ""]) st_empty)) with
     | Ok (Some (k, est)) =>
         exists q, req_at k [mkReq 0 "ana@x.com" "Ana" (Some 20150) (Some 20154) ST_PENDING 5 "" ""]
                     = Some q /\ est = r_status q
           /\ self_conflict "Ana" (Some 20152) (Some 20160) (-1) k q
           /\ forall k' q', k' < k ->
                req_at k' [mkReq 0 "ana@x.com" "Ana" (Some 20150) (Some 20154) ST_PENDING 5 "" ""]
                = Some q' -> ~ self_conflict "Ana" (Some 20152) (Some 20160) (-1) k' q'
     | Ok None => forall k q,
         req_at k [mkReq 0 "ana@x.com" "Ana" (Some 20150) (Some 20154) ST_PENDING 5 "" ""] = Some q ->
         ~ self_conflict "Ana" (Some 20152) (Some 20160) (-1) k q
     | Err _ => False
     end.
Proof.
  split; [reflexivity|].
  exact (hasOverlapPendingOrApprovedSameEmployee_first_match
           (set_reqs (fun _ => [mkReq 0 "ana@x.com" "Ana" (Some 20150) (Some 20154)
                                  ST_PENDING 5 "" ""]) st_empty)
           "Ana" (Some 20152) (Some 20160) (-1) eq_refl).
Defined.

(** C1 (counterexample): a request of the same requester in
    [Necesita Revision] whose dates overlap the candidate range is not
    reported. *)

Lemma hasOverlapPendingOrApprovedSameEmployee_skips_review :
  let st := set_reqs (fun _ => [mkReq 0 "ana@x.com" "Ana" (Some 20150) (Some 20154)
                                  ST_REVIEW 5 "" ""]) st_empty in
  (exists q, req_at 2 (st_reqs st) = Some q /\ r_status q = ST_REVIEW
     /\ Str.trim (r_emp q) = Str.trim "Ana"
     /\ le_t (Some 20152) (r_end q) = true /\ le_t (r_start q) (Some 20160) = true)
  /\ fst (hasOverlapPendingOrApprovedSameEmployee_ "Ana" (Some 20152) (Some 20160) (-1) st)
     = Ok None.
Proof.
  split.
  - eexists. split; [reflexivity|]. repeat split; reflexivity.
  - vm_compute. reflexivity.
Qed.

(** ** Balance recompute *)














(** ** Manager decisions *)

(** One step of the symbolic run of an endpoint: compute, or split on a
    service answer that the run cannot decide. *)
Ltac run_step :=
  first
    [ progress simpl
    | match goal with
      | |- context [match Str.truthy ?x with _ => _ end] => destruct (Str.truthy x) eqn:?
      | |- context [match st_events ?s !! ?k with _ => _ end] => destruct (st_events s !! k) eqn:?
      | |- context [match st_mail_fault ?s with _ => _ end] => destruct (st_mail_fault s) eqn:?
      | |- context [match st_emps ?s with _ => _ end] => destruct (st_emps s) eqn:?
      end ].

Lemma req_at_insert rowId (rs : list Req) q q' :
  req_at rowId rs = Some q -> req_at rowId (<[Z.to_nat (rowId - 2) := q']> rs) = Some q'.
Proof.
  unfold req_at. destruct (2 <=? rowId); [|discriminate].
  intros H. apply list_lookup_insert_eq. apply lookup_lt_is_Some_1. rewrite H. eauto.
Qed.





(** ** Calendar side effects of an approval *)

(** C7 (as amended): when the new status of a request is [Aprobado] or
    [Aprobado (Excepcion)], [handleEstadoChange_] updates in place the
    calendar event named by the stored reference if that event is still in
    the calendar, and otherwise creates a new all-day event and stores its
    id in the row; either way the event spans [start, end + 1 day) and is
    titled with the employee name, with "(EXCEPTION)" exactly for the
    exception status. *)
Theorem handleEstadoChange_approved st rowId prev q a b :
  st_db_fuel st = None -> st_cal_fault st = false ->
  req_at rowId (st_reqs st) = Some q ->
  (r_status q = ST_APPROVED \/ r_status q = ST_APPROVED_EXC) ->
  r_start q = Some a -> r_end q = Some b ->
  fst (handleEstadoChange_ rowId prev st) = Ok tt
  /\ match (if Str.truthy (r_event q) then st_events st !! r_event q else None) with
     | Some _ =>
         st_events (snd (handleEstadoChange_ rowId prev st)) !! r_event q
           = Some (mkEvent (approved_title (r_status q) (r_emp q)) a (b + 1))
         /\ st_reqs (snd (handleEstadoChange_ rowId prev st)) = st_reqs st
     | None =>
         st_events (snd (handleEstadoChange_ rowId prev st)) !! fresh_event_id (st_next_ev st)
           = Some (mkEvent (approved_title (r_status q) (r_emp q)) a (b + 1))
         /\ req_at rowId (st_reqs (snd (handleEstadoChange_ rowId prev st)))
            = Some (with_event (fresh_event_id (st_next_ev st)) q)
     end.
Proof.
  intros Hf Hc Hq Hst Ha Hb.
  assert (Happ : (Str.eqb (r_status q) ST_APPROVED || Str.eqb (r_status q) ST_APPROVED_EXC) = true)
    by (apply orb_true_iff; rewrite !Str_eqb_spec; exact Hst).
  unfold handleEstadoChange_, approved_title, getCalendar_, getEventById, updateEvent,
    createAllDayEvent, sendEmailSafe_, get_cell, set_cell, touch, storage_op,
    bind, gets, ret, throw.
  destruct (Str.truthy (r_event q)) eqn:Ht;
    [destruct (st_events st !! r_event q) eqn:Hl|];
    repeat (first [progress (rewrite ?Hf, ?Hq, ?Hc, ?Ha, ?Hb, ?Happ, ?Ht, ?Hl) | run_step]);
    repeat split; try reflexivity;
    try apply lookup_insert_eq; try (eapply req_at_insert; exact Hq).
Qed.

Lemma handleEstadoChange_approved_witness :
  let q := mkReq 0 "ana@x.com" "Ana" (Some 20150) (Some 20154) ST_APPROVED 5 "" "" in
  let st := set_reqs (fun _ => [q]) st_empty in
  st_db_fuel st = None /\ st_cal_fault st = false /\ req_at 2 (st_reqs st) = Some q
  /\ fst (handleEstadoChange_ 2 ST_PENDING st) = Ok tt
  /\ st_events (snd (handleEstadoChange_ 2 ST_PENDING st)) !! fresh_event_id 0
     = Some (mkEvent "Vacations: Ana" 20150 20155).
Proof.
  intros q st.
  destruct (handleEstadoChange_approved st 2 ST_PENDING q 20150 20154
              eq_refl eq_refl eq_refl (or_introl eq_refl) eq_refl eq_refl) as [H1 H2].
  split; [reflexivity|]. split; [reflexivity|]. split; [reflexivity|].
  split; [exact H1|]. exact (proj1 H2).
Defined.

(** C7 (counterexample): a stored reference whose event is no longer in the
    calendar is not updated: a new event is created and its id replaces the
    stored reference. *)
Lemma handleEstadoChange_stale_reference :
  let q := mkReq 0 "ana@x.com" "Ana" (Some 20150) (Some 20154) ST_APPROVED 5 "ev9" "" in
  let st := set_reqs (fun _ => [q]) st_empty in
  Str.truthy (r_event q) = true
  /\ fst (handleEstadoChange_ 2 ST_PENDING st) = Ok tt
  /\ st_events (snd (handleEstadoChange_ 2 ST_PENDING st)) !! "ev9" = None
  /\ st_events (snd (handleEstadoChange_ 2 ST_PENDING st)) !! "ev0"
     = Some (mkEvent "Vacations: Ana" 20150 20155)
  /\ option_map r_event (req_at 2 (st_reqs (snd (handleEstadoChange_ 2 ST_PENDING st))))
     = Some "ev0".
Proof. vm_compute. repeat split; reflexivity. Qed.

(** ** Row processing never throws *)

Lemma ret_never_throws {A} (a : A) : never_throws (ret a).
Proof. intros s. exists a. reflexivity. Qed.

Lemma catch_never_throws {A} (m : M A) h :
  (forall e, never_throws (h e)) -> never_throws (catch m h).
Proof.
  intros Hh s. unfold catch. destruct (m s) as [[a|e] s']; [eauto|apply Hh].
Qed.

Lemma bind_never_throws {A B} (m : M A) (k : A -> M B) :
  never_throws m -> (forall a, never_throws (k a)) -> never_throws (bind m k).
Proof.
  intros Hm Hk s. unfold bind. destruct (Hm s) as [a Ha].
  destruct (m s) as [r s'] eqn:E. simpl in Ha. subst r. apply Hk.
Qed.

Lemma modify_never_throws f : never_throws (modify f).
Proof. intros s. exists tt. reflexivity. Qed.

Lemma processRequestRow_never_throws row : never_throws (processRequestRow_ row).
Proof.
  unfold processRequestRow_.
  apply bind_never_throws; [apply modify_never_throws|intros _].
  apply bind_never_throws; [apply catch_never_throws; intros; apply ret_never_throws|].
  intros [|u subj]; [apply ret_never_throws|].
  apply catch_never_throws. intros. apply ret_never_throws.
Qed.

Lemma logAudit_never_throws : never_throws logAudit_.
Proof. apply catch_never_throws. intros. apply ret_never_throws. Qed.

(** Marker-free building blocks. *)

Lemma marker_free_state {A} (m : M A) :
  (forall s, st_trace (snd (m s)) = st_trace s
             \/ exists e, e <> EvRowProcessing /\ st_trace (snd (m s)) = app (st_trace s) [e]) ->
  marker_free m.
Proof.
  intros H s Hin. destruct (H s) as [E|(e & He & E)]; rewrite E in Hin; [exact Hin|].
  apply elem_of_app in Hin as [Hin|Hin]; [exact Hin|].
  apply list_elem_of_singleton in Hin. congruence.
Qed.

Lemma ret_marker_free {A} (a : A) : marker_free (ret a).
Proof. intros s H. exact H. Qed.

Lemma throw_marker_free {A} e : marker_free (@throw A e).
Proof. intros s H. exact H. Qed.

Lemma gets_marker_free {A} (f : St -> A) : marker_free (gets f).
Proof. intros s H. exact H. Qed.

Lemma storage_op_marker_free : marker_free storage_op.
Proof.
  apply marker_free_state. intros s. left. unfold storage_op.
  destruct (st_db_fuel s) as [[|n]|]; reflexivity.
Qed.

Lemma bind_marker_free {A B} (m : M A) (k : A -> M B) :
  marker_free m -> (forall a, marker_free (k a)) -> marker_free (bind m k).
Proof.
  intros Hm Hk s. unfold bind. destruct (m s) as [[a|e] s'] eqn:E; intros Hin.
  - apply (Hm s). rewrite E. exact (Hk a s' Hin).
  - apply (Hm s). rewrite E. exact Hin.
Qed.

Lemma touch_marker_free t : marker_free (touch t).
Proof.
  apply bind_marker_free; [apply storage_op_marker_free|intros _].
  apply marker_free_state. intros s. right. exists (EvAccess t (st_lock s)).
  split; [discriminate|reflexivity].
Qed.

Lemma modify_marker_free f : (forall s, st_trace (f s) = st_trace s) -> marker_free (modify f).
Proof. intros Hf s H. simpl in H. rewrite Hf in H. exact H. Qed.

Lemma checkRateLimit_marker_free u a : marker_free (checkRateLimit_ u a).
Proof.
  apply marker_free_state. intros s. left. unfold checkRateLimit_.
  destruct (RATE_LIMITS a) as [[mx w]|]; [|reflexivity].
  destruct (mx <=? _); reflexivity.
Qed.

Lemma waitLock_marker_free : marker_free waitLock.
Proof.
  apply marker_free_state. intros s. unfold waitLock. destruct (st_lock_busy s); [left; reflexivity|].
  right. exists EvAcquire. split; [discriminate|reflexivity].
Qed.

Lemma releaseLock_marker_free : marker_free releaseLock.
Proof.
  apply marker_free_state. intros s. right. exists EvRelease. split; [discriminate|reflexivity].
Qed.

Lemma releaseLock_never_throws : never_throws releaseLock.
Proof. intros s. exists tt. reflexivity. Qed.

Lemma _buscarNombrePorEmail_marker_free e : marker_free (_buscarNombrePorEmail e).
Proof.
  apply bind_marker_free; [apply storage_op_marker_free|intros _].
  apply bind_marker_free; [apply touch_marker_free|intros _]. apply gets_marker_free.
Qed.

Lemma hasOverlap_marker_free e a b c :
  marker_free (hasOverlapPendingOrApprovedSameEmployee_ e a b c).
Proof.
  apply bind_marker_free; [apply storage_op_marker_free|intros _].
  apply bind_marker_free; [apply bind_marker_free; [apply touch_marker_free|intros; apply gets_marker_free]|].
  intros. apply ret_marker_free.
Qed.

Lemma set_cell_marker_free r f : marker_free (set_cell r f).
Proof.
  apply bind_marker_free; [apply touch_marker_free|intros _].
  apply marker_free_state. intros s. left. destruct (req_at r (st_reqs s)); reflexivity.
Qed.

Lemma oarp_of_marker_free {A} (P : A -> Prop) m : marker_free m -> ok_after_row_processing P m.
Proof. intros Hm s Hn Hin. exfalso. exact (Hn (Hm s Hin)). Qed.

Lemma oarp_bind {A B} (P : B -> Prop) (m : M A) (k : A -> M B) :
  marker_free m -> (forall a, ok_after_row_processing P (k a)) ->
  ok_after_row_processing P (bind m k).
Proof.
  intros Hm Hk s Hn. unfold bind. destruct (m s) as [[a|e] s'] eqn:E; intros Hin.
  - apply (Hk a s'); [|exact Hin].
    intros Hs'. apply Hn, (Hm s). rewrite E. exact Hs'.
  - exfalso. apply Hn, (Hm s). rewrite E. exact Hin.
Qed.

Lemma oarp_catch {A} (P : A -> Prop) (m : M A) h :
  ok_after_row_processing P m -> (forall e, marker_free (h e)) ->
  ok_after_row_processing P (catch m h).
Proof.
  intros Hm Hh s Hn. unfold catch. destruct (m s) as [[a|e] s'] eqn:E; intros Hin.
  - destruct (Hm s Hn) as (a' & Ha' & HP); [rewrite E; exact Hin|].
    rewrite E in Ha'. simpl in Ha'. injection Ha' as <-. eauto.
  - destruct (Hm s Hn) as (a' & Ha' & _).
    + rewrite E. exact (Hh e s' Hin).
    + rewrite E in Ha'. discriminate.
Qed.

Lemma oarp_finally {A} (P : A -> Prop) (m : M A) f :
  ok_after_row_processing P m -> marker_free f -> never_throws f ->
  ok_after_row_processing P (finally m f).
Proof.
  intros Hm Hf Hnt s Hn. unfold finally. destruct (m s) as [r s'] eqn:E.
  destruct (Hnt s') as [u Hu]. destruct (f s') as [[v|e] s''] eqn:Ef; simpl in Hu; [|discriminate].
  intros Hin. simpl in Hin.
  assert (Hs' : EvRowProcessing ∈ st_trace s') by (apply (Hf s'); rewrite Ef; exact Hin).
  destruct (Hm s Hn) as (a & Ha & HP); [rewrite E; exact Hs'|].
  rewrite E in Ha. simpl in Ha. subst r. eauto.
Qed.

Lemma oarp_always {A} (P : A -> Prop) (m : M A) :
  (forall s, exists a, fst (m s) = Ok a /\ P a) -> ok_after_row_processing P m.
Proof. intros H s _ _. apply H. Qed.

Lemma row_processing_then_success (n : Z) :
  forall s, exists a, fst ((result <- processRequestRow_ n ;; logAudit_ ;;; ret (true, result)) s) = Ok a
                      /\ fst a = true.
Proof.
  intros s. unfold bind at 1.
  destruct (processRequestRow_never_throws n s) as [r Hr].
  destruct (processRequestRow_ n s) as [r0 s'] eqn:E. simpl in Hr. subst r0.
  unfold bind. destruct (logAudit_never_throws s') as [u Hu].
  destruct (logAudit_ s') as [r1 s''] eqn:E2. simpl in Hu. subst r1.
  exists (true, r). split; reflexivity.
Qed.

Lemma edit_rest_success (rowId : Z) :
  forall s, exists a, fst ((processRequestRow_ rowId ;;; logAudit_ ;;; ret true) s) = Ok a
                      /\ a = true.
Proof.
  intros s. unfold bind at 1.
  destruct (processRequestRow_never_throws rowId s) as [r Hr].
  destruct (processRequestRow_ rowId s) as [r0 s'] eqn:E. simpl in Hr. subst r0.
  unfold bind. destruct (logAudit_never_throws s') as [u Hu].
  destruct (logAudit_ s') as [r1 s''] eqn:E2. simpl in Hu. subst r1.
  exists true. split; reflexivity.
Qed.

(** C10: [processRequestRow_] never throws, for every sheet state and row
    (storage or mail failures inside it included); and a run of
    [apiCreateRequest] or [apiEditRequest] that has entered row processing
    returns normally with [success: true], however row processing ended. *)
Theorem processRequestRow_no_throw :
  (forall row, never_throws (processRequestRow_ row))
  /\ (forall userEmail now today startDate endDate,
        ok_after_row_processing (fun r => fst r = true)
          (apiCreateRequest userEmail now today startDate endDate))
  /\ (forall userEmail rowId startDate endDate,
        ok_after_row_processing (fun b => b = true)
          (apiEditRequest userEmail rowId startDate endDate)).
Proof.
  split; [exact processRequestRow_never_throws|]. split.
  - intros userEmail now today startDate endDate. unfold apiCreateRequest.
    apply oarp_bind; [apply checkRateLimit_marker_free|intros _].
    apply oarp_bind; [apply waitLock_marker_free|intros _].
    apply oarp_finally;
      [|apply releaseLock_marker_free|apply releaseLock_never_throws].
    apply oarp_catch; [|intros; apply throw_marker_free].
    apply oarp_bind; [apply _buscarNombrePorEmail_marker_free|intros nombre0].
    destruct (startDate <? today); [apply oarp_of_marker_free, throw_marker_free|].
    apply oarp_bind.
    { destruct (ENFORCE_MIN_ADVANCE_DAYS && (0 <? MIN_ADVANCE_DAYS));
        [destruct (startDate - today <? MIN_ADVANCE_DAYS)|];
        first [apply throw_marker_free|apply ret_marker_free]. }
    intros _. apply oarp_bind; [apply hasOverlap_marker_free|intros conflict].
    destruct conflict as [c|]; [apply oarp_of_marker_free, throw_marker_free|].
    apply oarp_bind; [apply storage_op_marker_free|intros _].
    apply oarp_bind; [apply touch_marker_free|intros _].
    apply oarp_bind; [apply modify_marker_free; reflexivity|intros _].
    apply oarp_bind; [apply storage_op_marker_free|intros _].
    apply oarp_bind; [apply touch_marker_free|intros _].
    apply oarp_bind; [apply gets_marker_free|intros newRowIndex].
    apply oarp_always. apply row_processing_then_success.
  - intros userEmail rowId startDate endDate. unfold apiEditRequest.
    apply oarp_bind; [apply checkRateLimit_marker_free|intros _].
    apply oarp_bind; [apply waitLock_marker_free|intros _].
    apply oarp_finally;
      [|apply releaseLock_marker_free|apply releaseLock_never_throws].
    apply oarp_catch; [|intros; apply throw_marker_free].
    apply oarp_bind; [apply storage_op_marker_free|intros _].
    apply oarp_bind; [apply set_cell_marker_free|intros _].
    apply oarp_bind; [apply set_cell_marker_free|intros _].
    apply oarp_bind; [apply set_cell_marker_free|intros _].
    apply oarp_always. apply edit_rest_success.
Qed.

Lemma processRequestRow_no_throw_witness :
  EvRowProcessing ∉ st_trace (st_c10 12)
  /\ EvRowProcessing ∈ st_trace (snd (apiCreateRequest "ana@x.com" 1000 20140 20150 20154 (st_c10 12)))
  /\ map r_days (st_reqs (snd (apiCreateRequest "ana@x.com" 1000 20140 20150 20154 (st_c10 12)))) = [0]
  /\ (exists a, fst (apiCreateRequest "ana@x.com" 1000 20140 20150 20154 (st_c10 12)) = Ok a
                /\ fst a = true).
Proof.
  assert (H1 : EvRowProcessing ∉ st_trace (st_c10 12)) by apply not_elem_of_nil.
  assert (H2 : EvRowProcessing ∈ st_trace (snd (apiCreateRequest "ana@x.com" 1000 20140 20150 20154 (st_c10 12)))).
  { rewrite list_elem_of_In. vm_compute. repeat (first [left; reflexivity | right]). }
  split; [exact H1|]. split; [exact H2|]. split; [vm_compute; reflexivity|].
  exact (proj1 (proj2 processRequestRow_no_throw) "ana@x.com" 1000 20140 20150 20154 (st_c10 12) H1 H2).
Defined.

Lemma cancel_lookup_nth userEmail (rs : list Req) (i : Z) (j : nat) q :
  rs !! j = Some q ->
  cancel_lookup userEmail (i + 1 + Z.of_nat j) i rs
  = (Str.eqb (Str.lower (Str.trim (r_email q))) (Str.lower userEmail), r_status q).
Proof.
  revert i j. induction rs as [|q0 rs IH]; intros i j Hj; [discriminate|].
  destruct j as [|j]; simpl in Hj |- *.
  - injection Hj as <-. rewrite Z.add_0_r, Z.eqb_refl. reflexivity.
  - replace (i + 1 =? i + 1 + Z.of_nat (S j)) with false by (symmetry; apply Z.eqb_neq; lia).
    replace (i + 1 + Z.of_nat (S j)) with (i + 1 + 1 + Z.of_nat j) by lia.
    apply IH. exact Hj.
Qed.

Lemma cancel_lookup_at userEmail rowId (rs : list Req) q :
  req_at rowId rs = Some q ->
  cancel_lookup userEmail rowId 1 rs
  = (Str.eqb (Str.lower (Str.trim (r_email q))) (Str.lower userEmail), r_status q).
Proof.
  intros H. apply req_at_lookup in H as (j & -> & Hj).
  replace (2 + Z.of_nat j) with (1 + 1 + Z.of_nat j) by lia.
  apply cancel_lookup_nth. exact Hj.
Qed.


(** C2: the edit endpoint checks neither the caller nor the current status:
    whoever calls it (owner or not) on an existing data row, whatever that
    row's status, gets success, with healthy storage, the lock free and the
    caller under the edit rate limit. *)
Theorem apiEditRequest_any_caller (userEmail : string) (rowId startDate endDate : Z) (s : St) (q : Req) :
  st_db_fuel s = None -> st_lock_busy s = false ->
  default 0 (st_rl s !! ("ratelimit_edit_request_" ++ userEmail)) < 10 ->
  req_at rowId (st_reqs s) = Some q ->
  fst (apiEditRequest userEmail rowId startDate endDate s) = Ok true.
Proof.
  intros Hf Hb Hrl Hq.
  assert (Hrl' : (10 <=? default 0 (st_rl s !! ("ratelimit_" ++ "edit_request" ++ "_" ++ userEmail))) = false) by (apply Z.leb_gt; exact Hrl).
  pose proof (req_at_insert _ _ _ (with_start (Some startDate) q) Hq) as Hq1.
  pose proof (req_at_insert _ _ _ (with_end (Some endDate) (with_start (Some startDate) q)) Hq1) as Hq2.
  pose proof (req_at_insert _ _ _ (with_status ST_PENDING (with_end (Some endDate) (with_start (Some startDate) q))) Hq2) as Hq3.
  pose proof (processRequestRow_never_throws rowId) as HP.
  pose proof logAudit_never_throws as HL.
  unfold apiEditRequest.
  revert HP HL. generalize (processRequestRow_ rowId) as P. generalize logAudit_ as L. intros L P HP HL.
  unfold checkRateLimit_, waitLock, releaseLock, finally, set_cell, touch, _getDb, storage_op, catch, bind, gets, ret, throw.
  repeat (first [progress (rewrite ?Hrl', ?Hb, ?Hf, ?Hq, ?Hq1, ?Hq2, ?Hq3) | progress simpl]).
  match goal with |- context [P ?x] => destruct (HP x) as [u Hu]; destruct (P x) as [r s1]; simpl in Hu; subst r end.
  simpl.
  match goal with |- context [L ?x] => destruct (HL x) as [u' Hu']; destruct (L x) as [r s2]; simpl in Hu'; subst r end.
  reflexivity.
Qed.

(** C3: the cancel endpoint rejects every caller whose trimmed, lowercased
    address differs from the requester's, managers included, with the
    not-found error, and rejects the owner on a status other than
    [Pendiente] or [Necesita Revisión] with the cannot-cancel error naming
    that status; in both cases no request row is written. *)
Theorem apiCancelRequest_rejects (userEmail : string) (rowId : Z) (s : St) (q : Req) :
  st_db_fuel s = None -> st_lock_busy s = false ->
  default 0 (st_rl s !! ("ratelimit_cancel_request_" ++ userEmail)) < 3 ->
  req_at rowId (st_reqs s) = Some q ->
  (Str.lower (Str.trim (r_email q)) <> Str.lower userEmail ->
     fst (apiCancelRequest userEmail rowId s) = Err E_NotFound
     /\ st_reqs (snd (apiCancelRequest userEmail rowId s)) = st_reqs s)
  /\ (Str.lower (Str.trim (r_email q)) = Str.lower userEmail ->
      r_status q <> ST_PENDING -> r_status q <> ST_REVIEW ->
      fst (apiCancelRequest userEmail rowId s) = Err (E_CannotCancel (r_status q))
      /\ st_reqs (snd (apiCancelRequest userEmail rowId s)) = st_reqs s).
Proof.
  intros Hf Hb Hrl Hq.
  assert (Hrl' : (3 <=? default 0 (st_rl s !! ("ratelimit_" ++ "cancel_request" ++ "_" ++ userEmail))) = false) by (apply Z.leb_gt; exact Hrl).
  pose proof (cancel_lookup_at userEmail rowId _ q Hq) as Hc.
  split.
  - intros Hne. assert (He : Str.eqb (Str.lower (Str.trim (r_email q))) (Str.lower userEmail) = false)
      by (unfold Str.eqb; destruct (decide _); congruence).
    rewrite He in Hc.
    unfold apiCancelRequest, checkRateLimit_, waitLock, releaseLock, finally, get_all_reqs, touch, _getDb, storage_op, catch, bind, gets, ret, throw.
    repeat (first [progress (rewrite ?Hrl', ?Hb, ?Hf, ?Hc) | progress simpl]).
    split; reflexivity.
  - intros Heq Hp Hr. assert (He : Str.eqb (Str.lower (Str.trim (r_email q))) (Str.lower userEmail) = true)
      by (unfold Str.eqb; destruct (decide _); congruence).
    assert (Hp' : Str.eqb (r_status q) ST_PENDING = false) by (unfold Str.eqb; destruct (decide _); congruence).
    assert (Hr' : Str.eqb (r_status q) ST_REVIEW = false) by (unfold Str.eqb; destruct (decide _); congruence).
    rewrite He in Hc.
    unfold apiCancelRequest, checkRateLimit_, waitLock, releaseLock, finally, get_all_reqs, touch, _getDb, storage_op, catch, bind, gets, ret, throw.
    repeat (first [progress (rewrite ?Hrl', ?Hb, ?Hf, ?Hc, ?Hp', ?Hr') | progress simpl]).
    split; reflexivity.
Qed.

(** C8: when the owner cancels a request in [Pendiente] or
    [Necesita Revisión], the call succeeds and the row's status becomes
    [Cancelado]; its event reference is cleared (and a still existing event
    deleted) when the calendar answers, and left in place when the calendar
    fails, a failure the endpoint swallows. *)
Theorem apiCancelRequest_owner_ok (userEmail : string) (rowId : Z) (s : St) (q : Req) :
  st_db_fuel s = None -> st_lock_busy s = false ->
  default 0 (st_rl s !! ("ratelimit_cancel_request_" ++ userEmail)) < 3 ->
  req_at rowId (st_reqs s) = Some q ->
  Str.lower (Str.trim (r_email q)) = Str.lower userEmail ->
  (r_status q = ST_PENDING \/ r_status q = ST_REVIEW) ->
  fst (apiCancelRequest userEmail rowId s) = Ok true
  /\ req_at rowId (st_reqs (snd (apiCancelRequest userEmail rowId s)))
     = Some (with_event (if st_cal_fault s then r_event q else "") (with_status ST_CANCELLED q))
  /\ (st_cal_fault s = false -> Str.truthy (r_event q) = true ->
      st_events (snd (apiCancelRequest userEmail rowId s)) !! r_event q = None).
Proof.
  intros Hf Hb Hrl Hq Heq Hst.
  assert (Hrl' : (3 <=? default 0 (st_rl s !! ("ratelimit_" ++ "cancel_request" ++ "_" ++ userEmail))) = false) by (apply Z.leb_gt; exact Hrl).
  pose proof (cancel_lookup_at userEmail rowId _ q Hq) as Hc.
  assert (He : Str.eqb (Str.lower (Str.trim (r_email q))) (Str.lower userEmail) = true)
    by (unfold Str.eqb; destruct (decide _); congruence).
  assert (Hs : negb (Str.eqb (r_status q) ST_PENDING) && negb (Str.eqb (r_status q) ST_REVIEW) = false)
    by (unfold Str.eqb; destruct Hst as [-> | ->]; reflexivity).
  rewrite He in Hc.
  pose proof (req_at_insert _ _ _ (with_status ST_CANCELLED q) Hq) as Hq1.
  pose proof (req_at_insert _ _ _ (with_event "" (with_status ST_CANCELLED q)) Hq1) as Hq2.
  unfold apiCancelRequest, recalcEmpleados_, logAudit_, checkRateLimit_, waitLock, releaseLock,
    finally, get_all_reqs, get_cell, set_cell, getCalendar_, getEventById, deleteEvent,
    touch, _getDb, storage_op, catch, modify, bind, gets, ret, throw.
  destruct (st_cal_fault s) eqn:Hcf; destruct (Str.truthy (r_event q)) eqn:Ht.
  all: repeat (first [progress (rewrite ?Hrl', ?Hb, ?Hf, ?Hc, ?Hs, ?Hq, ?Hq1, ?Hq2, ?Hcf, ?Ht) | run_step]).
  all: split; [reflexivity|]; split.
  all: try (intros H1 H2; first [discriminate | apply lookup_delete_eq | assumption]).
  all: f_equal; destruct q as [ts em nm a b st dd ev nt]; simpl in Ht |- *; unfold with_event, with_status; simpl.
  all: try reflexivity.
  all: destruct ev; [reflexivity|discriminate].
Qed.

Lemma apiEditRequest_any_caller_witness :
  st_db_fuel (st_row ST_APPROVED false) = None
  /\ st_lock_busy (st_row ST_APPROVED false) = false
  /\ default 0 (st_rl (st_row ST_APPROVED false) !! ("ratelimit_edit_request_" ++ "bob@x.com")) < 10
  /\ req_at 2 (st_reqs (st_row ST_APPROVED false)) = Some (row_ana ST_APPROVED)
  /\ fst (apiEditRequest "bob@x.com" 2 20160 20161 (st_row ST_APPROVED false)) = Ok true
  /\ option_map (fun q => (r_email q, r_start q, r_end q))
       (req_at 2 (st_reqs (snd (apiEditRequest "bob@x.com" 2 20160 20161 (st_row ST_APPROVED false)))))
     = Some ("ana@x.com", Some 20160, Some 20161).
Proof.
  assert (H3 : default 0 (st_rl (st_row ST_APPROVED false) !! ("ratelimit_edit_request_" ++ "bob@x.com")) < 10)
    by (vm_compute; reflexivity).
  split; [reflexivity|]. split; [reflexivity|]. split; [exact H3|]. split; [reflexivity|].
  split; [|vm_compute; reflexivity].
  exact (apiEditRequest_any_caller "bob@x.com" 2 20160 20161 (st_row ST_APPROVED false) (row_ana ST_APPROVED)
           eq_refl eq_refl H3 eq_refl).
Defined.

Lemma apiCancelRequest_rejects_witness :
  "m@x.com" ∈ st_managers (st_row ST_PENDING false)
  /\ fst (apiCancelRequest "m@x.com" 2 (st_row ST_PENDING false)) = Err E_NotFound
  /\ st_reqs (snd (apiCancelRequest "m@x.com" 2 (st_row ST_PENDING false))) = [row_ana ST_PENDING].
Proof.
  assert (H3 : default 0 (st_rl (st_row ST_PENDING false) !! ("ratelimit_cancel_request_" ++ "m@x.com")) < 3)
    by (vm_compute; reflexivity).
  assert (Hne : Str.lower (Str.trim (r_email (row_ana ST_PENDING))) <> Str.lower "m@x.com")
    by (vm_compute; discriminate).
  split; [apply list_elem_of_In; left; reflexivity|].
  exact (proj1 (apiCancelRequest_rejects "m@x.com" 2 (st_row ST_PENDING false) (row_ana ST_PENDING)
                  eq_refl eq_refl H3 eq_refl) Hne).
Defined.

Lemma apiCancelRequest_owner_ok_witness :
  fst (apiCancelRequest "ana@x.com" 2 (st_row ST_PENDING false)) = Ok true
  /\ req_at 2 (st_reqs (snd (apiCancelRequest "ana@x.com" 2 (st_row ST_PENDING false))))
     = Some (with_event "" (with_status ST_CANCELLED (row_ana ST_PENDING)))
  /\ st_events (snd (apiCancelRequest "ana@x.com" 2 (st_row ST_PENDING false))) !! "ev0" = None.
Proof.
  assert (H3 : default 0 (st_rl (st_row ST_PENDING false) !! ("ratelimit_cancel_request_" ++ "ana@x.com")) < 3)
    by (vm_compute; reflexivity).
  destruct (apiCancelRequest_owner_ok "ana@x.com" 2 (st_row ST_PENDING false) (row_ana ST_PENDING)
              eq_refl eq_refl H3 eq_refl eq_refl (or_introl eq_refl)) as (Hr & Hq & He).
  split; [exact Hr|]. split; [exact Hq|]. exact (He eq_refl eq_refl).
Defined.

(** A calendar failure during the cancel leaves the event reference in the
    row: the owner's cancel of a pending request succeeds, the status is
    [Cancelado], and column H still holds [ev0]. *)
Lemma apiCancelRequest_calendar_failure_keeps_reference :
  fst (apiCancelRequest "ana@x.com" 2 (st_row ST_PENDING true)) = Ok true
  /\ option_map (fun q => (r_status q, r_event q))
       (req_at 2 (st_reqs (snd (apiCancelRequest "ana@x.com" 2 (st_row ST_PENDING true)))))
     = Some (ST_CANCELLED, "ev0").
Proof. split; vm_compute; reflexivity. Qed.

(** C9: the manager's decision endpoint reads and writes the request table
    without taking the lock: on an approval it returns success, its trace
    holds a request-table access made with the lock not held, and no lock
    acquisition. *)
Lemma apiProcessRequest_unlocked_access :
  fst (apiProcessRequest "m@x.com" 2 ST_APPROVED_EXC st_c4) = Ok true
  /\ EvAccess T_Requests false ∈ st_trace (snd (apiProcessRequest "m@x.com" 2 ST_APPROVED_EXC st_c4))
  /\ EvAcquire ∉ st_trace (snd (apiProcessRequest "m@x.com" 2 ST_APPROVED_EXC st_c4)).
Proof.
  split; [vm_compute; reflexivity|]. split.
  - rewrite list_elem_of_In. vm_compute. repeat (first [left; reflexivity | right]).
  - rewrite list_elem_of_In. vm_compute. intuition discriminate.
Qed.

(* ------------------------------------------------------------------ *)
(** ** The manager list *)

Lemma truthy_spec (x : string) : Str.truthy x = true <-> x <> "".
Proof. destruct x; simpl; split; congruence. Qed.

Lemma uniq_filter_spec xs : forall seen,
  NoDup (uniq_filter seen xs)
  /\ (forall x, x ∈ uniq_filter seen xs <->
        x <> "" /\ x ∉ seen /\ x ∉ object_proto_keys /\ x ∈ xs)
  /\ sublist (uniq_filter seen xs) xs.
Proof.
  induction xs as [|x0 rest IH]; intros seen; simpl.
  - split; [constructor|]. split; [|constructor].
    intros x. split; [intros H; apply not_elem_of_nil in H; contradiction|].
    intros (_ & _ & _ & H). apply not_elem_of_nil in H. contradiction.
  - destruct (Str.truthy x0 && negb (bool_decide (x0 ∈ seen))
              && negb (bool_decide (x0 ∈ object_proto_keys))) eqn:Hk.
    + rewrite !andb_true_iff, !negb_true_iff, !bool_decide_eq_false, truthy_spec in Hk.
      destruct Hk as [[Hne Hns] Hnp].
      destruct (IH ({[x0]} ∪ seen)) as (Hnd & Hin & Hsub).
      split; [|split].
      * constructor; [|exact Hnd]. rewrite Hin. set_solver.
      * intros x. rewrite elem_of_cons, Hin, elem_of_cons.
        destruct (decide (x = x0)) as [->|Hx]; [set_solver|].
        split; [set_solver|]. intros (H1 & H2 & H3 & [H4|H4]); [contradiction|]. set_solver.
      * apply sublist_skip. exact Hsub.
    + destruct (IH seen) as (Hnd & Hin & Hsub).
      split; [exact Hnd|]. split; [|apply sublist_cons; exact Hsub].
      intros x. rewrite Hin, elem_of_cons. split; [tauto|].
      intros (H1 & H2 & H3 & [Hx|H4]); [|tauto]. subst x.
      exfalso. revert Hk. rewrite !andb_false_iff, !negb_false_iff, !bool_decide_eq_true.
      intros [[H|H]|H]; [|contradiction|contradiction].
      destruct x0; [contradiction|discriminate].
Qed.

Lemma uniq_filter_app xs ys : forall seen,
  uniq_filter seen (app xs ys)
  = app (uniq_filter seen xs) (uniq_filter (list_to_set (uniq_filter seen xs) ∪ seen) ys).
Proof.
  induction xs as [|x rest IH]; intros seen; simpl.
  - rewrite (left_id_L ∅ union). reflexivity.
  - destruct (Str.truthy x && negb (bool_decide (x ∈ seen))
              && negb (bool_decide (x ∈ object_proto_keys))); simpl.
    + rewrite IH.
      assert (E : list_to_set (uniq_filter ({[x]} ∪ seen) rest) ∪ ({[x]} ∪ seen)
                  = ({[x]} ∪ list_to_set (uniq_filter ({[x]} ∪ seen) rest) ∪ seen : gset string)).
      { apply leibniz_equiv. intros y. rewrite !elem_of_union. tauto. }
      rewrite E. reflexivity.
    + apply IH.
Qed.

(** The manager list read from column A of [Notificar Solicitudes] holds
    each trimmed, non-empty cell once, in the order of first occurrence:
    reading one more cell appends its trimmed value exactly when it is
    non-empty, not yet listed and not a property name of [Object.prototype]
    (such as [constructor]), which is never listed. *)
Theorem managers_of_column_spec vals v :
  NoDup (managers_of_column vals)
  /\ (forall x, x ∈ managers_of_column vals <->
        x <> "" /\ x ∉ object_proto_keys /\ x ∈ map Str.trim vals)
  /\ sublist (managers_of_column vals) (map Str.trim vals)
  /\ managers_of_column (app vals [v])
     = app (managers_of_column vals)
         (if Str.truthy (Str.trim v) && negb (bool_decide (Str.trim v ∈ managers_of_column vals))
              && negb (bool_decide (Str.trim v ∈ object_proto_keys))
          then [Str.trim v] else []).
Proof.
  destruct (uniq_filter_spec (map Str.trim vals) ∅) as (Hnd & Hin & Hsub).
  split; [exact Hnd|]. split; [|split; [exact Hsub|]].
  - intros x. unfold managers_of_column. rewrite Hin. set_solver.
  - unfold managers_of_column. rewrite map_app, uniq_filter_app. f_equal. simpl.
    assert (E : bool_decide (Str.trim v ∈ (list_to_set (uniq_filter ∅ (map Str.trim vals)) ∪ ∅
                                            : gset string))
                = bool_decide (Str.trim v ∈ uniq_filter ∅ (map Str.trim vals))).
    { apply bool_decide_ext. set_solver. }
    rewrite E. reflexivity.
Qed.

(* ------------------------------------------------------------------ *)
(** ** The dashboard *)

Lemma dash_rows_spec iso uk im tm rows : forall i,
  dash_rows iso uk im tm i rows =
  (map (my_view iso) (List.filter (fun p => Str.eqb (Str.lower (Str.trim (r_email p.2))) uk)
                        (numbered (i + 1) rows)),
   if im then map (mgr_view iso tm) (List.filter (fun p => is_pending_or_review (r_status p.2))
                                      (numbered (i + 1) rows)) else [],
   if im then map (mgr_view iso tm) (List.filter (fun p => valid_state (r_status p.2))
                                      (numbered (i + 1) rows)) else []).
Proof.
  induction rows as [|q rest IH]; intros i; [destruct im; reflexivity|].
  simpl. rewrite IH.
  assert (Hp : Str.eqb (r_status q) ST_PENDING || Str.eqb (r_status q) ST_REVIEW
               = is_pending_or_review (r_status q)) by reflexivity.
  rewrite Hp.
  destruct (Str.eqb (Str.lower (Str.trim (r_email q))) uk);
  destruct im; simpl; try reflexivity;
  destruct (is_pending_or_review (r_status q));
  destruct (valid_state (r_status q)); reflexivity.
Qed.

Lemma getDashboardData_run iso colF userEmail s :
  st_db_fuel s = None -> Str.truthy userEmail = true ->
  getDashboardData iso colF userEmail s
  = inr (dashboard_of iso colF userEmail (st_managers s) (st_emps s) (st_reqs s)).
Proof.
  intros Hf Ht. unfold getDashboardData. rewrite Ht. simpl.
  unfold getManagerEmails_, touch, _getDb, storage_op, bind, gets, ret. simpl.
  repeat (progress (simpl; rewrite ?Hf)). reflexivity.
Qed.

Lemma getDashboardData_inr iso colF userEmail s d :
  getDashboardData iso colF userEmail s = inr d ->
  d = dashboard_of iso colF userEmail (st_managers s) (st_emps s) (st_reqs s).
Proof.
  unfold getDashboardData. destruct (Str.truthy userEmail); simpl; [|discriminate].
  unfold getManagerEmails_, touch, _getDb, storage_op, bind, gets, ret.
  destruct (st_db_fuel s) as [n|] eqn:Hf.
  - do 5 (destruct n as [|n]; simpl; rewrite ?Hf; simpl; [discriminate|]).
    congruence.
  - repeat (progress (simpl; rewrite ?Hf)). congruence.
Qed.

Lemma emp_entry_lookup colF m e key :
  (emp_entry colF m e).1 !! key = (if emp_matches key e then Some (ed_of colF e) else m.1 !! key)
  /\ (emp_entry colF m e).2 !! key = (if emp_matches key e then Some (e_team e) else m.2 !! key).
Proof.
  unfold emp_entry, emp_matches, ed_of. simpl.
  destruct (decide (Str.lower (Str.trim (e_email e)) = key)) as [He|He].
  - subst key. rewrite (proj2 (Str_eqb_spec _ _) eq_refl), orb_true_r.
    split; apply lookup_insert_eq.
  - replace (Str.eqb (Str.lower (Str.trim (e_email e))) key) with false
      by (symmetry; apply not_true_iff_false; rewrite Str_eqb_spec; exact He).
    rewrite orb_false_r.
    split; rewrite (lookup_insert_ne _ _ _ _ He);
    (destruct (decide (Str.lower (Str.trim (e_name e)) = key)) as [Hn|Hn];
     [subst key; rewrite (proj2 (Str_eqb_spec _ _) eq_refl); apply lookup_insert_eq
     |rewrite (lookup_insert_ne _ _ _ _ Hn);
      replace (Str.eqb (Str.lower (Str.trim (e_name e))) key) with false
        by (symmetry; apply not_true_iff_false; rewrite Str_eqb_spec; exact Hn);
      reflexivity]).
Qed.

Lemma emp_maps_fold colF key es : forall m0,
  (fold_left (emp_entry colF) es m0).1 !! key
    = match last (List.filter (emp_matches key) es) with
      | Some e => Some (ed_of colF e) | None => m0.1 !! key end
  /\ (fold_left (emp_entry colF) es m0).2 !! key
    = match last (List.filter (emp_matches key) es) with
      | Some e => Some (e_team e) | None => m0.2 !! key end.
Proof.
  induction es as [|e es IH]; intros m0; [split; reflexivity|].
  simpl. destruct (IH (emp_entry colF m0 e)) as [H1 H2]. rewrite H1, H2.
  destruct (emp_entry_lookup colF m0 e key) as [L1 L2]. rewrite L1, L2.
  destruct (emp_matches key e); [rewrite last_cons|];
    destruct (last (List.filter (emp_matches key) es)); split; reflexivity.
Qed.

Lemma find_head {A} (p : A -> bool) l : List.find p l = head (List.filter p l).
Proof. induction l as [|x l IH]; simpl; [reflexivity|]. destruct (p x); [reflexivity|exact IH]. Qed.

Lemma head_last_le1 {A} (l : list A) : (length l <= 1)%nat -> head l = last l.
Proof. destruct l as [|x [|y l]]; simpl; intros H; [reflexivity|reflexivity|lia]. Qed.

Lemma pending_valid st : is_pending_or_review st = true -> valid_state st = true.
Proof.
  unfold is_pending_or_review. rewrite orb_true_iff, !Str_eqb_spec.
  intros [-> | ->]; vm_compute; reflexivity.
Qed.

Lemma filter_pending_all iso tm l :
  List.filter (fun o => is_pending_or_review (mr_status o))
    (map (mgr_view iso tm) (List.filter (fun p => valid_state (r_status p.2)) l))
  = map (mgr_view iso tm) (List.filter (fun p => is_pending_or_review (r_status p.2)) l).
Proof.
  induction l as [|p l IH]; [reflexivity|].
  cbn [List.filter].
  destruct (valid_state (r_status p.2)) eqn:Hv;
    destruct (is_pending_or_review (r_status p.2)) eqn:Hp.
  - cbn [map List.filter]. change (mr_status (mgr_view iso tm p)) with (r_status p.2).
    rewrite Hp. cbn [map]. f_equal. exact IH.
  - cbn [map List.filter]. change (mr_status (mgr_view iso tm p)) with (r_status p.2).
    rewrite Hp. exact IH.
  - apply pending_valid in Hp. congruence.
  - exact IH.
Qed.

Lemma getInitialData_inr userEmail s i :
  getInitialData userEmail s = inr i ->
  i = mkInitData userEmail
        (if bool_decide (userEmail ∈ st_managers s) then "manager" else "agent")
        (let t := find_team (Str.lower (Str.trim userEmail)) (st_emps s) in
         if Str.truthy t then t else "General")
        (t_total (totals_of (st_saldo_col s) (Str.lower (Str.trim userEmail)) (st_emps s)))
        (t_usados (totals_of (st_saldo_col s) (Str.lower (Str.trim userEmail)) (st_emps s)))
        (t_remaining (totals_of (st_saldo_col s) (Str.lower (Str.trim userEmail)) (st_emps s))).
Proof.
  unfold getInitialData. destruct (Str.truthy userEmail); simpl; [|discriminate].
  unfold getEmployeeTotals_, getEmployeeTeam_, getManagerEmails_, touch, _getDb, storage_op,
    bind, gets, ret.
  destruct (st_db_fuel s) as [n|] eqn:Hf.
  - do 6 (destruct n as [|n]; simpl; rewrite ?Hf; simpl; [discriminate|]).
    congruence.
  - repeat (progress (simpl; rewrite ?Hf)). congruence.
Qed.

Lemma getInitialData_ok userEmail s :
  st_db_fuel s = None -> Str.truthy userEmail = true ->
  exists i, getInitialData userEmail s = inr i.
Proof.
  intros Hf Ht. unfold getInitialData. rewrite Ht. simpl.
  unfold getEmployeeTotals_, getEmployeeTeam_, getManagerEmails_, touch, _getDb, storage_op,
    bind, gets, ret.
  repeat (progress (simpl; rewrite ?Hf)). eauto.
Qed.

Lemma dashboard_of_parts iso colF userEmail ms es rs :
  let d := dashboard_of iso colF userEmail ms es rs in
  let tm := (emp_maps colF es).2 in
  let sheet := numbered 2 rs in
  db_role d = (if bool_decide (userEmail ∈ ms) then "manager" else "agent")
  /\ db_requests d = rev (map (my_view iso)
       (List.filter (fun p => Str.eqb (Str.lower (Str.trim (r_email p.2))) (Str.lower userEmail)) sheet))
  /\ db_pending d = (if bool_decide (userEmail ∈ ms)
                     then map (mgr_view iso tm) (List.filter (fun p => is_pending_or_review (r_status p.2)) sheet)
                     else [])
  /\ db_all d = (if bool_decide (userEmail ∈ ms)
                 then map (mgr_view iso tm) (List.filter (fun p => valid_state (r_status p.2)) sheet)
                 else [])
  /\ (db_total d, db_used d, db_remaining d, db_team d)
     = match last (List.filter (emp_matches (Str.lower userEmail)) es) with
       | Some e => (e_saldoHR e, e_usados e,
                    (if colF then e_saldoVac e else e_saldoHR e - e_usados e),
                    if Str.truthy (e_team e) then e_team e else "General")
       | None => (0, 0, 0, "General")
       end.
Proof.
  intros d tm sheet. subst d tm sheet. unfold dashboard_of.
  pose proof (emp_maps_fold colF (Str.lower userEmail) es (∅, ∅)) as [H1 H2].
  unfold emp_maps. destruct (fold_left (emp_entry colF) es (∅, ∅)) as [em tmap] eqn:E.
  simpl in H1, H2. rewrite H1, H2, dash_rows_spec. simpl.
  split; [reflexivity|]. split; [reflexivity|]. split; [reflexivity|]. split; [reflexivity|].
  destruct (last (List.filter (emp_matches (Str.lower userEmail)) es)); reflexivity.
Qed.

(** [getDashboardData] returns as [requests] exactly the sheet rows whose
    trimmed, lowercased email equals the lowercased caller address, newest
    sheet row first, each with its sheet row number as [id]. *)
Theorem getDashboardData_my_requests iso colF userEmail s d :
  getDashboardData iso colF userEmail s = inr d ->
  db_requests d = rev (map (my_view iso)
    (List.filter (fun p => Str.eqb (Str.lower (Str.trim (r_email p.2))) (Str.lower userEmail))
       (numbered 2 (st_reqs s)))).
Proof.
  intros H. apply getDashboardData_inr in H. subst d.
  apply (dashboard_of_parts iso colF userEmail (st_managers s) (st_emps s) (st_reqs s)).
Qed.

(** The manager views of [getDashboardData]: a caller outside the manager
    list gets the role [agent] and empty [pending] and [allRequests]; a
    manager gets every row whose status is one of the four known states in
    [allRequests] (sheet order), and [pending] is the sublist of
    [allRequests] in [Pendiente] or [Necesita Revisión].  The requester
    names of the rows, lowercased and trimmed, are not property names of
    [Object.prototype], so [teamMap[empKey]] reads an own entry or nothing. *)
Theorem getDashboardData_manager_views iso colF userEmail s d :
  Forall (fun q => Str.lower (Str.trim (r_emp q)) ∉ object_proto_keys) (st_reqs s) ->
  getDashboardData iso colF userEmail s = inr d ->
  (userEmail ∉ st_managers s -> db_role d = "agent" /\ db_pending d = [] /\ db_all d = [])
  /\ (userEmail ∈ st_managers s ->
      db_role d = "manager"
      /\ db_all d = map (mgr_view iso (emp_maps colF (st_emps s)).2)
                      (List.filter (fun p => valid_state (r_status p.2)) (numbered 2 (st_reqs s)))
      /\ db_pending d = List.filter (fun o => is_pending_or_review (mr_status o)) (db_all d)).
Proof.
  intros _ H. apply getDashboardData_inr in H. subst d.
  destruct (dashboard_of_parts iso colF userEmail (st_managers s) (st_emps s) (st_reqs s))
    as (Hr & _ & Hp & Ha & _).
  split.
  - intros Hn. rewrite (bool_decide_eq_false_2 _ Hn) in Hr, Hp, Ha. auto.
  - intros Hm. rewrite (bool_decide_eq_true_2 _ Hm) in Hr, Hp, Ha.
    split; [exact Hr|]. split; [exact Ha|]. rewrite Hp, Ha. symmetry. apply filter_pending_all.
Qed.

(** The balance figures and team [getDashboardData] shows come from the
    LAST employee row whose trimmed, lowercased name or email equals the
    lowercased caller address (zeros and [General] when none does);
    [remaining] is column F when the data range has one, else
    [saldoHR - usados].  The caller address contains [@], as every address
    [Session] returns does, so its key is neither a property name of
    [Object.prototype] nor one of an employee object's. *)
Theorem getDashboardData_stats_last_row iso colF userEmail s d :
  Str.includes "@" userEmail = true ->
  getDashboardData iso colF userEmail s = inr d ->
  (db_total d, db_used d, db_remaining d, db_team d)
  = match last (List.filter (emp_matches (Str.lower userEmail)) (st_emps s)) with
    | Some e => (e_saldoHR e, e_usados e,
                 (if colF then e_saldoVac e else e_saldoHR e - e_usados e),
                 if Str.truthy (e_team e) then e_team e else "General")
    | None => (0, 0, 0, "General")
    end.
Proof.
  intros _ H. apply getDashboardData_inr in H. subst d.
  apply (dashboard_of_parts iso colF userEmail (st_managers s) (st_emps s) (st_reqs s)).
Qed.

Lemma totals_find saldo key es :
  (t_total (totals_of saldo key es), t_usados (totals_of saldo key es),
   t_remaining (totals_of saldo key es),
   let t := find_team key es in if Str.truthy t then t else "General")
  = match List.find (emp_matches key) es with
    | Some e => (e_saldoHR e, e_usados e,
                 (if saldo then e_saldoVac e else e_saldoHR e - e_usados e),
                 if Str.truthy (e_team e) then e_team e else "General")
    | None => (0, 0, 0, "General")
    end.
Proof.
  unfold totals_of, find_team. change (fun e => Str.eqb (Str.lower (Str.trim (e_name e))) key
      || Str.eqb (Str.lower (Str.trim (e_email e))) key) with (emp_matches key).
  destruct (List.find (emp_matches key) es); reflexivity.
Qed.

(** [getInitialData] fails with [Backend Error: User not identified] for an
    empty address; otherwise, with the storage reachable, it answers with
    the role [manager] exactly when the address is in the manager list, and
    with the balance figures and team of the FIRST employee row whose
    trimmed, lowercased name or email equals the trimmed, lowercased
    address (zeros and [General] when none does). *)
Theorem getInitialData_first_row userEmail s :
  (Str.truthy userEmail = false -> getInitialData userEmail s = inl (RE_Wrapped RE_NoUser))
  /\ (st_db_fuel s = None -> Str.truthy userEmail = true ->
      exists i, getInitialData userEmail s = inr i
        /\ in_role i = (if bool_decide (userEmail ∈ st_managers s) then "manager" else "agent")
        /\ (in_total i, in_used i, in_remaining i, in_team i)
           = match List.find (emp_matches (Str.lower (Str.trim userEmail))) (st_emps s) with
             | Some e => (e_saldoHR e, e_usados e,
                          (if st_saldo_col s then e_saldoVac e else e_saldoHR e - e_usados e),
                          if Str.truthy (e_team e) then e_team e else "General")
             | None => (0, 0, 0, "General")
             end).
Proof.
  split.
  - intros Ht. unfold getInitialData. rewrite Ht. reflexivity.
  - intros Hf Ht. destruct (getInitialData_ok userEmail s Hf Ht) as [i Hi].
    exists i. split; [exact Hi|]. apply getInitialData_inr in Hi. subst i.
    split; [reflexivity|]. simpl. apply totals_find.
Qed.

(** The two read endpoints agree: when the caller address contains [@] and
    carries no surrounding blanks, at most one employee row matches it by
    name or email, and the data range has a column F exactly when the
    [SaldoVacaciones] header is present (the model places that header on
    column F), [getInitialData] and [getDashboardData] report the same role,
    team and balance figures. *)
Theorem dashboard_agrees_with_initial_data iso colF userEmail s i d :
  Str.trim userEmail = userEmail -> Str.includes "@" userEmail = true ->
  colF = st_saldo_col s ->
  (length (List.filter (emp_matches (Str.lower userEmail)) (st_emps s)) <= 1)%nat ->
  getInitialData userEmail s = inr i ->
  getDashboardData iso colF userEmail s = inr d ->
  (db_role d, db_team d, db_total d, db_used d, db_remaining d)
  = (in_role i, in_team i, in_total i, in_used i, in_remaining i).
Proof.
  intros Htr _ Hc Hle Hi Hd. subst colF.
  apply getInitialData_inr in Hi. apply getDashboardData_inr in Hd. subst i d.
  destruct (dashboard_of_parts iso (st_saldo_col s) userEmail (st_managers s) (st_emps s) (st_reqs s))
    as (Hr & _ & _ & _ & Hs).
  pose proof (totals_find (st_saldo_col s) (Str.lower (Str.trim userEmail)) (st_emps s)) as Ht.
  rewrite Htr in Ht. rewrite find_head, head_last_le1 in Ht by exact Hle.
  rewrite <- Hs in Ht. rewrite Htr. simpl. rewrite Hr.
  injection Ht as <- <- <- <-. reflexivity.
Qed.

Lemma getDashboardData_my_requests_witness :
  exists d, getDashboardData (fun _ => "") true "ana@x.com" (st_row ST_PENDING false) = inr d
    /\ db_requests d = rev (map (my_view (fun _ => ""))
         (List.filter (fun p => Str.eqb (Str.lower (Str.trim (r_email p.2))) (Str.lower "ana@x.com"))
            (numbered 2 (st_reqs (st_row ST_PENDING false))))).
Proof.
  eexists. split.
  - apply getDashboardData_run; reflexivity.
  - apply (getDashboardData_my_requests (fun _ => "") true). apply getDashboardData_run; reflexivity.
Defined.

Lemma getDashboardData_manager_views_witness :
  exists d, getDashboardData (fun _ => "") true "m@x.com" (st_row ST_PENDING false) = inr d
    /\ db_role d = "manager"
    /\ db_pending d = List.filter (fun o => is_pending_or_review (mr_status o)) (db_all d).
Proof.
  eexists. split; [apply getDashboardData_run; reflexivity|].
  assert (Hk : Forall (fun q => Str.lower (Str.trim (r_emp q)) ∉ object_proto_keys)
                 (st_reqs (st_row ST_PENDING false))).
  { constructor; [|constructor].
    apply (bool_decide_unpack ("ana" ∉ object_proto_keys)). vm_compute. exact I. }
  destruct (getDashboardData_manager_views (fun _ => "") true "m@x.com" (st_row ST_PENDING false) _
    Hk ltac:(apply getDashboardData_run; reflexivity)) as [_ Hm].
  destruct Hm as (Hr & _ & Hp); [apply list_elem_of_In; simpl; auto|].
  split; [exact Hr | exact Hp].
Defined.

Lemma getDashboardData_stats_last_row_witness :
  exists d, getDashboardData (fun _ => "") true "ana@x.com" (st_row ST_PENDING false) = inr d
    /\ (db_total d, db_used d, db_remaining d, db_team d)
       = match last (List.filter (emp_matches (Str.lower "ana@x.com")) (st_emps (st_row ST_PENDING false))) with
         | Some e => (e_saldoHR e, e_usados e, e_saldoVac e,
                      if Str.truthy (e_team e) then e_team e else "General")
         | None => (0, 0, 0, "General")
         end.
Proof.
  eexists. split; [apply getDashboardData_run; reflexivity|].
  apply (getDashboardData_stats_last_row (fun _ => "") true); [reflexivity|].
  apply getDashboardData_run; reflexivity.
Defined.

Lemma getInitialData_first_row_witness :
  getInitialData "" (st_row ST_PENDING false) = inl (RE_Wrapped RE_NoUser)
  /\ exists i, getInitialData "ana@x.com" (st_row ST_PENDING false) = inr i
       /\ in_role i = "agent".
Proof.
  split.
  - apply (proj1 (getInitialData_first_row "" (st_row ST_PENDING false))). reflexivity.
  - destruct (proj2 (getInitialData_first_row "ana@x.com" (st_row ST_PENDING false)))
      as (i & Hi & Hr & _); [reflexivity|reflexivity|].
    exists i. split; [exact Hi|]. rewrite Hr. reflexivity.
Defined.

Lemma dashboard_agrees_with_initial_data_witness :
  exists i d,
    Str.trim "ana@x.com" = "ana@x.com"
    /\ (length (List.filter (emp_matches (Str.lower "ana@x.com")) (st_emps (st_row ST_PENDING false))) <= 1)%nat
    /\ getInitialData "ana@x.com" (st_row ST_PENDING false) = inr i
    /\ getDashboardData (fun _ => "") (st_saldo_col (st_row ST_PENDING false)) "ana@x.com" (st_row ST_PENDING false) = inr d
    /\ (db_role d, db_team d, db_total d, db_used d, db_remaining d)
       = (in_role i, in_team i, in_total i, in_used i, in_remaining i).
Proof.
  destruct (getInitialData_ok "ana@x.com" (st_row ST_PENDING false)) as [i Hi];
    [reflexivity|reflexivity|].
  exists i. eexists.
  assert (Hd : getDashboardData (fun _ => "") (st_saldo_col (st_row ST_PENDING false)) "ana@x.com"
     (st_row ST_PENDING false) = inr (dashboard_of (fun _ => "") (st_saldo_col (st_row ST_PENDING false))
       "ana@x.com" (st_managers (st_row ST_PENDING false)) (st_emps (st_row ST_PENDING false))
       (st_reqs (st_row ST_PENDING false)))) by (apply getDashboardData_run; reflexivity).
  split; [reflexivity|]. split; [vm_compute; lia|]. split; [exact Hi|]. split; [exact Hd|].
  apply (dashboard_agrees_with_initial_data (fun _ => "") (st_saldo_col (st_row ST_PENDING false))
           "ana@x.com" (st_row ST_PENDING false));
    [reflexivity | reflexivity | reflexivity | vm_compute; lia | exact Hi | exact Hd].
Defined.

Lemma set_rl_set_rl r1 r2 s : set_rl r1 (set_rl r2 s) = set_rl r1 s.
Proof. destruct s; reflexivity. Qed.

Lemma set_rl_same s : set_rl (st_rl s) s = s.
Proof. destruct s; reflexivity. Qed.

Lemma RATE_LIMITS_some a mx w :
  RATE_LIMITS a = Some (mx, w) ->
  (a = "create_request" /\ mx = 5 \/ a = "cancel_request" /\ mx = 3
   \/ a = "edit_request" /\ mx = 10) /\ w = 3600.
Proof.
  unfold RATE_LIMITS.
  destruct (Str.eqb a "create_request") eqn:E1;
    [apply Str_eqb_spec in E1; intros H; injection H as <- <-; auto|].
  destruct (Str.eqb a "cancel_request") eqn:E2;
    [apply Str_eqb_spec in E2; intros H; injection H as <- <-; auto|].
  destruct (Str.eqb a "edit_request") eqn:E3;
    [apply Str_eqb_spec in E3; intros H; injection H as <- <-; auto|].
  discriminate.
Qed.

Lemma string_app_cancel (p u u' : string) : p ++ u = p ++ u' -> u = u'.
Proof. induction p as [|c p IH]; simpl; [auto|]. intros H. injection H. exact IH. Qed.

Lemma rl_iter u a mx w : RATE_LIMITS a = Some (mx, w) ->
  let key := "ratelimit_" ++ a ++ "_" ++ u in
  forall (k : nat) s,
  default 0 (st_rl s !! key) + Z.of_nat k <= mx ->
  exists s', Nat.iter k (fun m => checkRateLimit_ u a ;;; m) (ret tt) s = (Ok tt, s')
    /\ default 0 (st_rl s' !! key) = default 0 (st_rl s !! key) + Z.of_nat k
    /\ s' = set_rl (st_rl s') s
    /\ (default 0 (st_rl s !! key) + Z.of_nat k = mx ->
        Nat.iter (S k) (fun m => checkRateLimit_ u a ;;; m) (ret tt) s
        = (Err (E_RateLimit ((w + 59) / 60)), s')).
Proof.
  intros Hrl key k. induction k as [|k IH]; intros s Hc.
  - exists s. split; [reflexivity|]. split; [lia|]. split; [symmetry; apply set_rl_same|].
    intros Heq. simpl. unfold bind, checkRateLimit_. fold key. rewrite Hrl.
    rewrite (proj2 (Z.leb_le mx _)) by lia. reflexivity.
  - set (c := default 0 (st_rl s !! key)) in *.
    set (s1 := set_rl (<[key := c + 1]> (st_rl s)) s).
    assert (Hs1 : checkRateLimit_ u a s = (Ok tt, s1)).
    { unfold checkRateLimit_. fold key. fold c. rewrite Hrl.
      rewrite (proj2 (Z.leb_gt mx c)) by lia. reflexivity. }
    assert (Hc1 : default 0 (st_rl s1 !! key) = c + 1).
    { unfold s1. simpl. rewrite lookup_insert_eq. reflexivity. }
    destruct (IH s1) as (s' & Hrun & Hcnt & Hshape & Hlast); [lia|].
    exists s'. split; [|split; [|split]].
    + change (Nat.iter (S k) (fun m => checkRateLimit_ u a ;;; m) (ret tt) s)
        with ((checkRateLimit_ u a ;;; Nat.iter k (fun m => checkRateLimit_ u a ;;; m) (ret tt)) s).
      unfold bind at 1. rewrite Hs1. exact Hrun.
    + lia.
    + rewrite Hshape. unfold s1. apply set_rl_set_rl.
    + intros Heq.
      change (Nat.iter (S (S k)) (fun m => checkRateLimit_ u a ;;; m) (ret tt) s)
        with ((checkRateLimit_ u a ;;; Nat.iter (S k) (fun m => checkRateLimit_ u a ;;; m) (ret tt)) s).
      unfold bind at 1. rewrite Hs1. apply Hlast. lia.
Qed.

(** The rate limiter in sequence: from a fresh counter, each of the first
    [max] calls of [checkRateLimit_] for one user and one listed action
    passes, and the next one is refused with the window in minutes
    ([(window + 59) / 60]), leaving the state as the [max] calls left it;
    those calls change nothing but the rate-limit cache. *)
Theorem checkRateLimit_quota u a mx w s :
  RATE_LIMITS a = Some (mx, w) ->
  st_rl s !! ("ratelimit_" ++ a ++ "_" ++ u) = None ->
  exists s',
    Nat.iter (Z.to_nat mx) (fun m => checkRateLimit_ u a ;;; m) (ret tt) s = (Ok tt, s')
    /\ Nat.iter (S (Z.to_nat mx)) (fun m => checkRateLimit_ u a ;;; m) (ret tt) s
       = (Err (E_RateLimit ((w + 59) / 60)), s')
    /\ st_rl s' !! ("ratelimit_" ++ a ++ "_" ++ u) = Some mx
    /\ s' = set_rl (st_rl s') s.
Proof.
  intros Hrl Hnone.
  assert (Hmx : 0 < mx) by (destruct (RATE_LIMITS_some _ _ _ Hrl) as [[[_ ->]|[[_ ->]|[_ ->]]] _]; lia).
  destruct (rl_iter u a mx w Hrl (Z.to_nat mx) s) as (s' & Hrun & Hcnt & Hshape & Hlast).
  { rewrite Hnone. simpl. lia. }
  exists s'. split; [exact Hrun|]. split; [apply Hlast; rewrite Hnone; simpl; lia|].
  split; [|exact Hshape].
  rewrite Hnone in Hcnt. simpl in Hcnt.
  destruct (st_rl s' !! ("ratelimit_" ++ a ++ "_" ++ u)) as [v|] eqn:Hv; simpl in Hcnt.
  - f_equal. lia.
  - lia.
Qed.

(** A call of [checkRateLimit_] for one user and one listed action changes
    no other cached counter: neither another user's nor the same user's
    counter for another listed action, and nothing outside the cache. *)
Theorem checkRateLimit_independent u a u' a' s mx w mx' w' :
  RATE_LIMITS a = Some (mx, w) -> RATE_LIMITS a' = Some (mx', w') ->
  (a, u) <> (a', u') ->
  st_rl (checkRateLimit_ u a s).2 !! ("ratelimit_" ++ a' ++ "_" ++ u')
    = st_rl s !! ("ratelimit_" ++ a' ++ "_" ++ u')
  /\ (checkRateLimit_ u a s).2 = set_rl (st_rl (checkRateLimit_ u a s).2) s.
Proof.
  intros Hrl Hrl' Hne.
  assert (Hk : "ratelimit_" ++ a ++ "_" ++ u <> "ratelimit_" ++ a' ++ "_" ++ u').
  { destruct (RATE_LIMITS_some _ _ _ Hrl) as [Ha _].
    destruct (RATE_LIMITS_some _ _ _ Hrl') as [Ha' _].
    intros Heq. destruct (decide (a = a')) as [<-|Hna].
    - apply Hne. f_equal.
      apply string_app_cancel in Heq. apply string_app_cancel in Heq.
      apply string_app_cancel in Heq. exact Heq.
    - destruct Ha as [[-> _]|[[-> _]|[-> _]]]; destruct Ha' as [[-> _]|[[-> _]|[-> _]]];
        solve [apply Hna; reflexivity | simpl in Heq; discriminate]. }
  unfold checkRateLimit_. rewrite Hrl. destruct (_ <=? _); simpl.
  - split; [reflexivity|]. symmetry. apply set_rl_same.
  - split; [|reflexivity]. apply lookup_insert_ne. exact Hk.
Qed.

Lemma checkRateLimit_frame u a s :
  (checkRateLimit_ u a s).2 = set_rl (st_rl (checkRateLimit_ u a s).2) s.
Proof.
  unfold checkRateLimit_. destruct (RATE_LIMITS a) as [[mx w]|]; [destruct (_ <=? _)|]; simpl;
    try reflexivity; symmetry; apply set_rl_same.
Qed.

Lemma guarded_lock {A} u a (body : M A) s :
  st_lock s = false ->
  st_lock ((checkRateLimit_ u a ;;; waitLock ;;; finally body releaseLock) s).2 = false
  /\ (st_lock_busy s = false -> (checkRateLimit_ u a s).1 = Ok tt ->
      last (st_trace ((checkRateLimit_ u a ;;; waitLock ;;; finally body releaseLock) s).2)
      = Some EvRelease).
Proof.
  intros Hl. pose proof (checkRateLimit_frame u a s) as Hfr.
  unfold bind, finally, waitLock, releaseLock.
  destruct (checkRateLimit_ u a s) as [[[]|e] s1]; simpl in Hfr.
  all: assert (Hl1 : st_lock s1 = st_lock s) by (rewrite Hfr; reflexivity).
  all: assert (Hb1 : st_lock_busy s1 = st_lock_busy s) by (rewrite Hfr; reflexivity).
  - rewrite Hb1. destruct (st_lock_busy s) eqn:Hb.
    + simpl. split; [rewrite Hl1; exact Hl|]. intros H; discriminate.
    + destruct (body _) as [r s3]. simpl. split; [reflexivity|]. intros _ _. apply last_snoc.
  - simpl. split; [rewrite Hl1; exact Hl|]. intros _ H; discriminate.
Qed.

(** The three mutating endpoints never leave the script lock held: started
    without it, [apiCreateRequest], [apiCancelRequest] and [apiEditRequest]
    end with the lock free whatever their body does, and once the rate
    limit passed and the lock was obtained, the last recorded event is its
    release. *)
Theorem api_mutations_release_lock u now today rowId sd ed s :
  st_lock s = false ->
  (st_lock (apiCreateRequest u now today sd ed s).2 = false
   /\ (st_lock_busy s = false -> (checkRateLimit_ u "create_request" s).1 = Ok tt ->
       last (st_trace (apiCreateRequest u now today sd ed s).2) = Some EvRelease))
  /\ (st_lock (apiCancelRequest u rowId s).2 = false
   /\ (st_lock_busy s = false -> (checkRateLimit_ u "cancel_request" s).1 = Ok tt ->
       last (st_trace (apiCancelRequest u rowId s).2) = Some EvRelease))
  /\ (st_lock (apiEditRequest u rowId sd ed s).2 = false
   /\ (st_lock_busy s = false -> (checkRateLimit_ u "edit_request" s).1 = Ok tt ->
       last (st_trace (apiEditRequest u rowId sd ed s).2) = Some EvRelease)).
Proof.
  intros Hl. split; [|split]; apply guarded_lock; exact Hl.
Qed.

(** A refused creation still uses up one of the caller's creation slots:
    under the limit, with the storage reachable, [apiCreateRequest] first
    counts the call, then fails with [E_Busy] when the lock is taken, or,
    holding the lock, with [E_PastDate] for a start before today; in both
    cases no row is added and no mail is sent, and the lock ends free. *)
Theorem apiCreateRequest_refused_counts u now today sd ed s :
  st_db_fuel s = None -> st_lock s = false ->
  default 0 (st_rl s !! ("ratelimit_create_request_" ++ u)) < 5 ->
  (st_lock_busy s = true \/ sd < today) ->
  let r := apiCreateRequest u now today sd ed s in
  r.1 = (if st_lock_busy s then Err E_Busy else Err E_PastDate)
  /\ st_reqs r.2 = st_reqs s /\ st_outbox r.2 = st_outbox s
  /\ st_rl r.2 !! ("ratelimit_create_request_" ++ u)
     = Some (default 0 (st_rl s !! ("ratelimit_create_request_" ++ u)) + 1)
  /\ st_lock r.2 = false.
Proof.
  intros Hf Hl Hc Hcase r. subst r.
  unfold apiCreateRequest, checkRateLimit_, waitLock, releaseLock, finally, catch, bind,
    _buscarNombrePorEmail, touch, _getDb, storage_op, gets, ret, throw.
  unfold bind, storage_op, gets.
  change ("ratelimit_" ++ "create_request" ++ "_" ++ u) with ("ratelimit_create_request_" ++ u).
  cbn [RATE_LIMITS Str.eqb]. simpl.
  rewrite (proj2 (Z.leb_gt 5 _)) by exact Hc. simpl.
  destruct (st_lock_busy s) eqn:Hb.
  - simpl. rewrite lookup_insert_eq. auto.
  - destruct Hcase as [Hcase|Hlt]; [discriminate|].
    simpl. repeat (rewrite Hf; simpl).
    rewrite (proj2 (Z.ltb_lt sd today) Hlt). simpl.
    rewrite lookup_insert_eq. auto.
Qed.


Lemma getEmployeeTeam_run st e :
  st_db_fuel st = None ->
  exists st', getEmployeeTeam_ e st = (Ok (find_team (Str.lower (Str.trim e)) (st_emps st)), st')
    /\ st_emps st' = st_emps st /\ st_reqs st' = st_reqs st /\ st_db_fuel st' = None.
Proof.
  intros Hf. unfold getEmployeeTeam_, touch, _getDb, storage_op, bind, gets.
  simpl. rewrite Hf. simpl. rewrite Hf. simpl. eexists. split; [reflexivity|]. auto.
Qed.

Lemma team_scan_spec es emp team s0 e0 cur rows : forall r st,
  st_db_fuel st = None -> st_emps st = es ->
  match fst (team_scan emp team s0 e0 cur r rows st) with
  | Ok (Some h) =>
      exists j q, rows !! j = Some q /\ th_row h = r + 1 + Z.of_nat j
        /\ team_hit es emp team s0 e0 cur (th_row h) q = true
        /\ th_emp h = Str.trim (r_emp q) /\ th_estado h = r_status q /\ th_team h = team
        /\ forall j' q', (j' < j)%nat -> rows !! j' = Some q' ->
             team_hit es emp team s0 e0 cur (r + 1 + Z.of_nat j') q' = false
  | Ok None => forall j q, rows !! j = Some q ->
      team_hit es emp team s0 e0 cur (r + 1 + Z.of_nat j) q = false
  | Err _ => False
  end.
Proof.
  induction rows as [|q rest IH]; intros r st Hf He.
  - simpl. intros j q H. rewrite lookup_nil in H. discriminate.
  - assert (Hskip : forall st', st_db_fuel st' = None -> st_emps st' = es ->
        team_hit es emp team s0 e0 cur (r + 1) q = false ->
        match fst (team_scan emp team s0 e0 cur (r + 1) rest st') with
        | Ok (Some h) =>
            exists j q0, (q :: rest) !! j = Some q0 /\ th_row h = r + 1 + Z.of_nat j
              /\ team_hit es emp team s0 e0 cur (th_row h) q0 = true
              /\ th_emp h = Str.trim (r_emp q0) /\ th_estado h = r_status q0 /\ th_team h = team
              /\ forall j' q', (j' < j)%nat -> (q :: rest) !! j' = Some q' ->
                   team_hit es emp team s0 e0 cur (r + 1 + Z.of_nat j') q' = false
        | Ok None => forall j q0, (q :: rest) !! j = Some q0 ->
            team_hit es emp team s0 e0 cur (r + 1 + Z.of_nat j) q0 = false
        | Err _ => False
        end).
    { intros st' Hf' He' Hh. specialize (IH (r + 1) st' Hf' He').
      destruct (fst (team_scan emp team s0 e0 cur (r + 1) rest st')) as [[h|]|e]; [| |exact IH].
      - destruct IH as (j & q1 & Hj & Hk & Hhit & Hem & Hes & Hte & Hfirst).
        exists (S j), q1. split; [exact Hj|]. split; [lia|].
        split; [exact Hhit|]. split; [exact Hem|]. split; [exact Hes|]. split; [exact Hte|].
        intros j' q' Hlt Hj'. destruct j' as [|j'].
        + simpl in Hj'. injection Hj' as <-. replace (r + 1 + Z.of_nat 0) with (r + 1) by lia.
          exact Hh.
        + simpl in Hj'. replace (r + 1 + Z.of_nat (S j')) with (r + 1 + 1 + Z.of_nat j') by lia.
          apply (Hfirst j'); [lia|exact Hj'].
      - intros j q1 Hj. destruct j as [|j].
        + simpl in Hj. injection Hj as <-. replace (r + 1 + Z.of_nat 0) with (r + 1) by lia.
          exact Hh.
        + simpl in Hj. replace (r + 1 + Z.of_nat (S j)) with (r + 1 + 1 + Z.of_nat j) by lia.
          exact (IH j q1 Hj). }
    cbn [team_scan].
    destruct (r + 1 =? cur) eqn:Hc; [apply Hskip; auto; unfold team_hit; rewrite Hc; reflexivity|].
    destruct (active_for_overlap (r_status q)) eqn:Ha;
      [|apply Hskip; auto; unfold team_hit; rewrite Hc, Ha; reflexivity].
    simpl negb.
    destruct (negb (Str.truthy (Str.trim (r_emp q))) || Str.eqb (Str.trim (r_emp q)) emp) eqn:Ht.
    { apply Hskip; auto. unfold team_hit. rewrite Hc, Ha. simpl.
      apply orb_true_iff in Ht as [Ht|Ht].
      - apply negb_true_iff in Ht. rewrite Ht. reflexivity.
      - rewrite Ht. rewrite andb_false_r. reflexivity. }
    apply orb_false_iff in Ht as [Ht1 Ht2]. apply negb_false_iff in Ht1.
    destruct (getEmployeeTeam_run st (Str.trim (r_emp q)) Hf) as (st' & Hrun & He' & _ & Hf').
    cbn [negb orb andb]. unfold bind. rewrite Hrun. rewrite He.
    destruct (negb (Str.truthy (find_team (Str.lower (Str.trim (Str.trim (r_emp q)))) es))
              || negb (Str.eqb (find_team (Str.lower (Str.trim (Str.trim (r_emp q)))) es) team)) eqn:Hm.
    { apply Hskip; [exact Hf'|rewrite He'; exact He|]. unfold team_hit. rewrite Hc, Ha, Ht1, Ht2. simpl.
      apply orb_true_iff in Hm as [Hm|Hm]; apply negb_true_iff in Hm; rewrite Hm;
        rewrite ?andb_false_r; reflexivity. }
    apply orb_false_iff in Hm as [Hm1 Hm2]. apply negb_false_iff in Hm1. apply negb_false_iff in Hm2.
    destruct (le_t s0 (r_end q) && le_t (r_start q) e0) eqn:Ho.
    + simpl. exists 0%nat, q. split; [reflexivity|]. simpl. split; [lia|].
      split; [|split; [reflexivity|split; [reflexivity|split; [reflexivity|intros; lia]]]]. unfold team_hit. rewrite Hc, Ha, Ht1, Ht2, Hm1, Hm2. simpl.
      destruct (le_t s0 (r_end q)), (le_t (r_start q) e0); simpl in *; congruence.
    + apply Hskip; [exact Hf'|rewrite He'; exact He|]. unfold team_hit.
      rewrite Hc, Ha, Ht1, Ht2, Hm1, Hm2. simpl. destruct (le_t s0 (r_end q)), (le_t (r_start q) e0); simpl in *; congruence.
Qed.

Lemma team_hit_no_team es emp s0 e0 cur k q : team_hit es emp "" s0 e0 cur k q = false.
Proof.
  unfold team_hit.
  destruct (Str.truthy (find_team (Str.lower (Str.trim (Str.trim (r_emp q)))) es)) eqn:Ht;
    [|rewrite ?andb_false_r; simpl; rewrite ?andb_false_r; reflexivity].
  apply truthy_spec in Ht.
  destruct (Str.eqb (find_team (Str.lower (Str.trim (Str.trim (r_emp q)))) es) "") eqn:Hq.
  - apply Str_eqb_spec in Hq. contradiction.
  - rewrite ?andb_false_r. simpl. rewrite ?andb_false_r. reflexivity.
Qed.

(** With the storage reachable, the team scan reports the first sheet row
    (in sheet order) that is another row than [currentRow], has status
    [Pendiente] or one containing [Aprobado], a non-empty trimmed requester
    different from the argument as passed (untrimmed), whose team is the
    non-empty team of the argument, and overlaps the candidate range; the
    hit carries that row's trimmed requester, its status and the team.  It
    reports nothing when no row qualifies, in particular when the argument
    has no team. *)
Theorem hasTeamOverlapPendingOrApproved_first_match st emp s0 e0 cur :
  st_db_fuel st = None ->
  let team := find_team (Str.lower (Str.trim emp)) (st_emps st) in
  match fst (hasTeamOverlapPendingOrApproved_ emp s0 e0 cur st) with
  | Ok (Some h) =>
      exists q, req_at (th_row h) (st_reqs st) = Some q
        /\ team_hit (st_emps st) emp team s0 e0 cur (th_row h) q = true
        /\ th_emp h = Str.trim (r_emp q) /\ th_estado h = r_status q /\ th_team h = team
        /\ forall k q', k < th_row h -> req_at k (st_reqs st) = Some q' ->
             team_hit (st_emps st) emp team s0 e0 cur k q' = false
  | Ok None => forall k q, req_at k (st_reqs st) = Some q ->
      team_hit (st_emps st) emp team s0 e0 cur k q = false
  | Err _ => False
  end.
Proof.
  intros Hf team. unfold hasTeamOverlapPendingOrApproved_.
  destruct (getEmployeeTeam_run st emp Hf) as (st1 & Hrun & He1 & Hr1 & Hf1).
  unfold bind at 1. rewrite Hrun. fold team.
  destruct (Str.truthy team) eqn:Ht; simpl.
  - unfold get_all_reqs, touch, _getDb, storage_op, bind, gets. simpl. rewrite Hf1. simpl.
    rewrite Hf1. simpl.
    set (st2 := log _ st1).
    assert (Hf2 : st_db_fuel st2 = None) by exact Hf1.
    assert (He2 : st_emps st2 = st_emps st) by exact He1.
    assert (Hr2 : st_reqs st1 = st_reqs st) by exact Hr1.
    rewrite Hr2.
    pose proof (team_scan_spec (st_emps st) emp team s0 e0 cur (st_reqs st) 1 st2 Hf2 He2) as Hs.
    destruct (fst (team_scan emp team s0 e0 cur 1 (st_reqs st) st2)) as [[h|]|e]; [| |exact Hs].
    + destruct Hs as (j & q & Hj & Hk & Hhit & Hem & Hes & Hte & Hfirst).
      exists q. split; [apply req_at_lookup; exists j; split; [lia|exact Hj]|].
      split; [exact Hhit|]. split; [exact Hem|]. split; [exact Hes|]. split; [exact Hte|].
      intros k q' Hlt Hq'. apply req_at_lookup in Hq' as (j' & -> & Hj').
      replace (2 + Z.of_nat j') with (1 + 1 + Z.of_nat j') by lia.
      apply (Hfirst j'); [lia|exact Hj'].
    + intros k q Hq. apply req_at_lookup in Hq as (j & -> & Hj).
      replace (2 + Z.of_nat j) with (1 + 1 + Z.of_nat j) by lia.
      exact (Hs j q Hj).
  - intros k q _.
    assert (H0 : team = "") by (destruct (decide (team = "")) as [E|E]; [exact E|];
      apply truthy_spec in E; congruence).
    rewrite H0. apply team_hit_no_team.
Qed.

Lemma StronglySorted_lookup {A} (R : A -> A -> Prop) (l : list A) :
  StronglySorted R l ->
  forall i j a b, (i < j)%nat -> l !! i = Some a -> l !! j = Some b -> R a b.
Proof.
  induction 1 as [|x l Hs IH Hall]; intros i j a b Hij Hi Hj.
  - rewrite lookup_nil in Hi. discriminate.
  - destruct i as [|i], j as [|j]; try lia; simpl in Hi, Hj.
    + injection Hi as <-. rewrite Forall_forall in Hall. apply Hall.
      apply list_elem_of_lookup_2 with j. exact Hj.
    + apply (IH i j); [lia|exact Hi|exact Hj].
Qed.

(** With the storage reachable, [sortSolicitudesByFechaInicio_] keeps the
    request rows as they were up to order, and leaves them ordered by start
    date: of any two rows, the upper one starts no later than the lower
    one, and rows with an empty start come after all rows with one.  The
    employee sheet is not touched. *)
Theorem sortSolicitudesByFechaInicio_spec st :
  st_db_fuel st = None ->
  let st' := snd (sortSolicitudesByFechaInicio_ st) in
  fst (sortSolicitudesByFechaInicio_ st) = Ok tt
  /\ st_reqs st' ≡ₚ st_reqs st
  /\ (forall i j a b, (i < j)%nat -> st_reqs st' !! i = Some a -> st_reqs st' !! j = Some b ->
        start_leb a b = true)
  /\ st_emps st' = st_emps st.
Proof.
  intros Hf st'. subst st'.
  unfold sortSolicitudesByFechaInicio_, touch, _getDb, storage_op, bind, gets, ret, modify.
  simpl. rewrite Hf. simpl. rewrite Hf. simpl.
  destruct (2 <? Z.of_nat (length (st_reqs st)) + 1) eqn:Hl; simpl.
  - rewrite Hf. simpl. split; [reflexivity|]. split; [apply merge_sort_Permutation|].
    split; [|reflexivity].
    apply StronglySorted_lookup. apply Sorted_StronglySorted; [exact start_le_trans|].
    apply Sorted_merge_sort. exact start_le_total.
  - split; [reflexivity|]. split; [reflexivity|]. split; [|reflexivity].
    intros i j a b Hij Hi Hj. apply Z.ltb_ge in Hl.
    apply lookup_lt_Some in Hj. lia.
Qed.


Lemma prr_invalid_run st row q :
  st_db_fuel st = None -> req_at row (st_reqs st) = Some q ->
  Str.truthy (r_emp q) && present (r_start q) && present (r_end q) && le_t (r_start q) (r_end q)
    = false ->
  (processRequestRow_ row st).1 = Ok (mail_none, mail_none)
  /\ st_reqs (processRequestRow_ row st).2
     = <[Z.to_nat (row - 2) := with_note "Invalid Data"
           (if Str.truthy (r_status q) then q else with_status ST_PENDING q)]> (st_reqs st)
  /\ st_outbox (processRequestRow_ row st).2 = st_outbox st
  /\ st_events (processRequestRow_ row st).2 = st_events st
  /\ st_emps (processRequestRow_ row st).2 = st_emps st
  /\ st_db_fuel (processRequestRow_ row st).2 = None
  /\ st_lock (processRequestRow_ row st).2 = st_lock st
  /\ st_rl (processRequestRow_ row st).2 = st_rl st.
Proof.
  intros Hf Hq Hinv.
  pose proof (req_at_insert _ _ _ (with_status ST_PENDING q) Hq) as Hq'.
  destruct (Str.truthy (r_status q)) eqn:Hs;
  unfold processRequestRow_, prr_classify;
  repeat (first [progress (rewrite ?Hf, ?Hq, ?Hq', ?Hinv, ?Hs) | progress simpl
                | progress unfold catch, bind, get_cell, set_cell, touch, storage_op,
                    gets, ret, modify, getEmployeeTeam_, _getDb, throw]);
  rewrite ?list_insert_insert_eq; repeat (split; [reflexivity|]); reflexivity.
Qed.

(** When the row read by [processRequestRow_] has an empty employee cell, an
    empty start or end, or an end before its start, the call writes the
    note [Invalid Data] (after filling an empty status with [Pendiente]),
    computes no business days, sends no mail, touches neither the calendar
    nor the employee sheet, and reports both notifications as not sent. *)
Theorem processRequestRow_invalid_data st row q :
  st_db_fuel st = None -> req_at row (st_reqs st) = Some q ->
  Str.truthy (r_emp q) && present (r_start q) && present (r_end q) && le_t (r_start q) (r_end q)
    = false ->
  (processRequestRow_ row st).1 = Ok (mail_none, mail_none)
  /\ st_reqs (processRequestRow_ row st).2
     = <[Z.to_nat (row - 2) := with_note "Invalid Data"
           (if Str.truthy (r_status q) then q else with_status ST_PENDING q)]> (st_reqs st)
  /\ st_outbox (processRequestRow_ row st).2 = st_outbox st
  /\ st_events (processRequestRow_ row st).2 = st_events st
  /\ st_emps (processRequestRow_ row st).2 = st_emps st
  /\ st_db_fuel (processRequestRow_ row st).2 = None
  /\ st_lock (processRequestRow_ row st).2 = st_lock st
  /\ st_rl (processRequestRow_ row st).2 = st_rl st.
Proof. apply prr_invalid_run. Qed.

Lemma self_scan_none E s0 e0 cur rows : forall r,
  (forall q, In q rows -> le_t s0 (r_end q) && le_t (r_start q) e0 = false) ->
  self_scan E s0 e0 cur r rows = None.
Proof.
  induction rows as [|q rest IH]; intros r Hno; [reflexivity|].
  rewrite self_scan_cons. unfold self_hit.
  rewrite (Hno q (or_introl eq_refl)), andb_false_r.
  apply IH. intros q' Hq'. apply Hno. right. exact Hq'.
Qed.

Lemma req_at_snoc (l : list Req) x :
  req_at (Z.of_nat (length (app l [x])) + 1) (app l [x]) = Some x.
Proof.
  unfold req_at. rewrite length_app. simpl.
  replace (2 <=? Z.of_nat (length l + 1) + 1) with true by (symmetry; apply Z.leb_le; lia).
  replace (Z.to_nat (Z.of_nat (length l + 1) + 1 - 2)) with (length l) by lia.
  apply list_lookup_middle. reflexivity.
Qed.

(** [apiCreateRequest] never checks that the end date is not before the
    start date: under the limit, with the lock free and the storage
    reachable, a start not before today and an end before the start, and no
    existing row whose dates straddle the pair, the call succeeds, appends
    one [Pendiente] row with 0 business days and the note [Invalid Data],
    sends no mail, reports both notifications as not sent, and frees the
    lock. *)
Theorem apiCreateRequest_reversed_range u now today sd ed s :
  st_db_fuel s = None -> st_lock s = false -> st_lock_busy s = false ->
  default 0 (st_rl s !! ("ratelimit_create_request_" ++ u)) < 5 ->
  today <= sd -> ed < sd ->
  (forall q, In q (st_reqs s) -> le_t (Some sd) (r_end q) && le_t (r_start q) (Some ed) = false) ->
  exists nombre,
    (apiCreateRequest u now today sd ed s).1 = Ok (true, (mail_none, mail_none))
    /\ st_reqs (apiCreateRequest u now today sd ed s).2
       = app (st_reqs s) [mkReq now u nombre (Some sd) (Some ed) ST_PENDING 0 "" "Invalid Data"]
    /\ st_outbox (apiCreateRequest u now today sd ed s).2 = st_outbox s
    /\ st_lock (apiCreateRequest u now today sd ed s).2 = false.
Proof.
  intros Hf Hl Hb Hc Hsd Hed Hno.
  assert (HP : forall row st q, st_db_fuel st = None -> req_at row (st_reqs st) = Some q ->
      Str.truthy (r_emp q) && present (r_start q) && present (r_end q)
        && le_t (r_start q) (r_end q) = false ->
      (processRequestRow_ row st).1 = Ok (mail_none, mail_none)
      /\ st_reqs (processRequestRow_ row st).2
         = <[Z.to_nat (row - 2) := with_note "Invalid Data"
               (if Str.truthy (r_status q) then q else with_status ST_PENDING q)]> (st_reqs st)
      /\ st_outbox (processRequestRow_ row st).2 = st_outbox st
      /\ st_db_fuel (processRequestRow_ row st).2 = None
      /\ st_lock (processRequestRow_ row st).2 = st_lock st).
  { intros row st q H1 H2 H3. destruct (prr_invalid_run st row q H1 H2 H3) as (A1 & A2 & A3 & _ & _ & A6 & A7 & _).
    auto. }
  assert (Hc' : (5 <=? default 0 (st_rl s !! ("ratelimit_create_request_" ++ u))) = false)
    by (apply Z.leb_gt; exact Hc).
  assert (Hsd' : (sd <? today) = false) by (apply Z.ltb_ge; lia).
  unfold apiCreateRequest, checkRateLimit_.
  change ("ratelimit_" ++ "create_request" ++ "_" ++ u) with ("ratelimit_create_request_" ++ u).
  cbn [RATE_LIMITS Str.eqb].
  revert HP. generalize processRequestRow_ as PR. intros PR HP.
  unfold hasOverlapPendingOrApprovedSameEmployee_, get_all_reqs.
  repeat (first [progress (rewrite ?Hf, ?Hb, ?Hc', ?Hsd') | progress simpl
                | progress unfold waitLock, releaseLock, finally, catch, bind,
                    _buscarNombrePorEmail, touch, _getDb, storage_op, gets, ret, throw, modify,
                    logAudit_]).
  rewrite self_scan_none by exact Hno.
  repeat (first [progress (rewrite ?Hf) | progress simpl]).
  match goal with |- context [PR ?i ?st] => remember st as s3 eqn:Hs3 end.
  match goal with |- context [PR ?i s3] => remember i as i3 eqn:Hi3 end.
  match goal with
  | Hs3 : s3 = log _ (set_reqs (fun rs => app rs [?x]) _) |- _ => set (newrow := x) in *
  end.
  assert (Hreq : req_at i3 (st_reqs s3) = Some newrow).
  { subst i3 s3. simpl. apply req_at_snoc. }
  assert (Hf3 : st_db_fuel s3 = None) by (subst s3; exact Hf).
  destruct (HP i3 s3 newrow Hf3 Hreq) as (B1 & B2 & B3 & B4 & B5).
  { subst newrow. simpl. rewrite (proj2 (Z.leb_gt sd ed)) by lia. apply andb_false_r. }
  destruct (PR i3 s3) as [r4 s4]. simpl in B1, B2, B3, B4, B5. subst r4.
  repeat (first [progress (rewrite ?B4) | progress simpl]).
  eexists. split; [reflexivity|]. split; [|split].
  - rewrite B2. subst newrow. simpl. subst s3 i3. simpl.
    rewrite length_app. simpl.
    replace (Z.to_nat (Z.of_nat (length (st_reqs s) + 1) + 1 - 2)) with (length (st_reqs s)) by lia.
    rewrite insert_app_r_alt by lia. rewrite Nat.sub_diag. reflexivity.
  - rewrite B3. subst s3. reflexivity.
  - reflexivity.
Qed.


(** [apiProcessRequest] called by an address outside the manager list
    changes no request row, no employee row, no calendar event and sends no
    mail; with the storage reachable it fails with [E_Unauthorized]. *)
Theorem apiProcessRequest_non_manager userEmail rowId action st :
  userEmail ∉ st_managers st ->
  (st_db_fuel st = None -> (apiProcessRequest userEmail rowId action st).1 = Err E_Unauthorized)
  /\ st_reqs (apiProcessRequest userEmail rowId action st).2 = st_reqs st
  /\ st_emps (apiProcessRequest userEmail rowId action st).2 = st_emps st
  /\ st_events (apiProcessRequest userEmail rowId action st).2 = st_events st
  /\ st_outbox (apiProcessRequest userEmail rowId action st).2 = st_outbox st.
Proof.
  intros Hm. apply (bool_decide_eq_false_2 (userEmail ∈ st_managers st)) in Hm.
  unfold apiProcessRequest, getManagerEmails_, touch, _getDb, storage_op, bind, gets, throw.
  destruct (st_db_fuel st) as [[|[|n]]|] eqn:Hf; simpl; rewrite ?Hf; simpl; rewrite ?Hm; simpl;
    (split; [intros; discriminate || reflexivity|]); auto.
Qed.

(** When the calendar is unreachable, a manager's [apiProcessRequest] on an
    existing row that passes the balance check has already written the new
    status to the row when it fails with [E_Calendar]: the call reports an
    error but the status is changed, while [Usados], the calendar and the
    outbox are left as they were. *)
Theorem apiProcessRequest_calendar_down userEmail rowId action st q :
  st_db_fuel st = None -> st_cal_fault st = true ->
  userEmail ∈ st_managers st -> req_at rowId (st_reqs st) = Some q ->
  (Str.eqb action ST_APPROVED = true ->
   0 <= t_remaining (totals_of (st_saldo_col st) (Str.lower (Str.trim (r_emp q))) (st_emps st)) - r_days q) ->
  (apiProcessRequest userEmail rowId action st).1 = Err E_Calendar
  /\ st_reqs (apiProcessRequest userEmail rowId action st).2
     = <[Z.to_nat (rowId - 2) := with_status action q]> (st_reqs st)
  /\ st_emps (apiProcessRequest userEmail rowId action st).2 = st_emps st
  /\ st_events (apiProcessRequest userEmail rowId action st).2 = st_events st
  /\ st_outbox (apiProcessRequest userEmail rowId action st).2 = st_outbox st.
Proof.
  intros Hf Hc Hm Hq Hbal.
  apply (bool_decide_eq_true_2 (userEmail ∈ st_managers st)) in Hm.
  destruct (Str.eqb action ST_APPROVED) eqn:Ha.
  - specialize (Hbal eq_refl).
    assert (Hb : (t_remaining (totals_of (st_saldo_col st) (Str.lower (Str.trim (r_emp q))) (st_emps st))
                  - r_days q <? 0) = false) by (apply Z.ltb_ge; exact Hbal).
    unfold apiProcessRequest.
    repeat (first [progress (rewrite ?Hf, ?Hm, ?Hq, ?Ha, ?Hb, ?Hc) | progress simpl
                  | progress unfold getManagerEmails_, touch, _getDb, storage_op, bind, gets, throw,
                      ret, get_cell, set_cell, getEmployeeTotals_, handleEstadoChange_, getCalendar_]).
    auto.
  - unfold apiProcessRequest.
    repeat (first [progress (rewrite ?Hf, ?Hm, ?Hq, ?Ha, ?Hc) | progress simpl
                  | progress unfold getManagerEmails_, touch, _getDb, storage_op, bind, gets, throw,
                      ret, get_cell, set_cell, getEmployeeTotals_, handleEstadoChange_, getCalendar_]).
    auto.
Qed.

(** For a row whose status is neither [Aprobado] nor [Aprobado (Excepción)],
    [handleEstadoChange_] (calendar, mail and storage reachable) deletes the
    row's calendar event when the row references one, clears that reference,
    and mails the requester [Request <status>] unless the status is
    [Pendiente] or [Necesita Revisión] or the email cell is empty. *)
Theorem handleEstadoChange_not_approved st rowId prev q :
  st_db_fuel st = None -> st_cal_fault st = false -> st_mail_fault st = false ->
  req_at rowId (st_reqs st) = Some q ->
  Str.eqb (r_status q) ST_APPROVED = false -> Str.eqb (r_status q) ST_APPROVED_EXC = false ->
  (handleEstadoChange_ rowId prev st).1 = Ok tt
  /\ st_events (handleEstadoChange_ rowId prev st).2
     = (if Str.truthy (r_event q) then delete (r_event q) (st_events st) else st_events st)
  /\ st_reqs (handleEstadoChange_ rowId prev st).2
     = (if Str.truthy (r_event q)
        then <[Z.to_nat (rowId - 2) := with_event "" q]> (st_reqs st) else st_reqs st)
  /\ st_outbox (handleEstadoChange_ rowId prev st).2
     = app (st_outbox st)
         (if Str.truthy (r_email q) && negb (Str.eqb (r_status q) ST_PENDING)
             && negb (Str.eqb (r_status q) ST_REVIEW)
          then [(r_email q, "Request " ++ r_status q)] else []).
Proof.
  intros Hf Hc Hmf Hq Ha Hx.
  unfold handleEstadoChange_.
  repeat (first [progress (rewrite ?Hf, ?Hc, ?Hmf, ?Hq, ?Ha, ?Hx)
                | progress unfold touch, _getDb, storage_op, bind, gets, throw, ret, catch,
                    get_cell, set_cell, getCalendar_, getEventById, deleteEvent, sendEmailSafe_
                | run_step
                | match goal with
                  | |- context [match ?c && ?d with _ => _ end] => destruct (c && d) eqn:?
                  end]).
  all: refine (conj _ (conj _ (conj _ _))); try reflexivity;
    try (rewrite app_nil_r; reflexivity); try (symmetry; apply delete_id; assumption).
Qed.


Lemma checkRateLimit_quota_witness :
  exists s',
    Nat.iter 5 (fun m => checkRateLimit_ "ana@x.com" "create_request" ;;; m) (ret tt)
      (st_row ST_PENDING false) = (Ok tt, s')
    /\ Nat.iter 6 (fun m => checkRateLimit_ "ana@x.com" "create_request" ;;; m) (ret tt)
      (st_row ST_PENDING false) = (Err (E_RateLimit 60), s').
Proof.
  destruct (checkRateLimit_quota "ana@x.com" "create_request" 5 3600 (st_row ST_PENDING false)
              ltac:(reflexivity) ltac:(reflexivity)) as (s' & H1 & H2 & _ & _).
  exists s'. split; [exact H1|exact H2].
Defined.

Lemma checkRateLimit_independent_witness :
  st_rl (checkRateLimit_ "ana@x.com" "create_request"
           (set_rl (<["ratelimit_cancel_request_ana@x.com" := 2]> ∅) (st_row ST_PENDING false))).2
    !! ("ratelimit_" ++ "cancel_request" ++ "_" ++ "ana@x.com") = Some 2.
Proof.
  rewrite (proj1 (checkRateLimit_independent "ana@x.com" "create_request" "ana@x.com" "cancel_request"
    (set_rl (<["ratelimit_cancel_request_ana@x.com" := 2]> ∅) (st_row ST_PENDING false)) 5 3600 3 3600
    ltac:(reflexivity) ltac:(reflexivity) ltac:(discriminate))).
  vm_compute. reflexivity.
Defined.

Lemma api_mutations_release_lock_witness :
  st_lock (apiEditRequest "bob@x.com" 2 20160 20161 (st_row ST_PENDING false)).2 = false
  /\ last (st_trace (apiEditRequest "bob@x.com" 2 20160 20161 (st_row ST_PENDING false)).2)
     = Some EvRelease.
Proof.
  destruct (api_mutations_release_lock "bob@x.com" 0 0 2 20160 20161 (st_row ST_PENDING false)
              ltac:(reflexivity)) as (_ & _ & H1 & H2).
  split; [exact H1|]. apply H2; vm_compute; reflexivity.
Defined.

Lemma apiCreateRequest_refused_counts_witness :
  (apiCreateRequest "ana@x.com" 1 20200 20150 20151 (st_row ST_PENDING false)).1 = Err E_PastDate
  /\ st_reqs (apiCreateRequest "ana@x.com" 1 20200 20150 20151 (st_row ST_PENDING false)).2
     = [row_ana ST_PENDING]
  /\ st_rl (apiCreateRequest "ana@x.com" 1 20200 20150 20151 (st_row ST_PENDING false)).2
       !! "ratelimit_create_request_ana@x.com" = Some 1.
Proof.
  destruct (apiCreateRequest_refused_counts "ana@x.com" 1 20200 20150 20151 (st_row ST_PENDING false)
    ltac:(reflexivity) ltac:(reflexivity) ltac:(vm_compute; reflexivity) ltac:(right; lia))
    as (H1 & H2 & _ & H4 & _).
  split; [exact H1|]. split; [exact H2|]. exact H4.
Defined.


Lemma hasTeamOverlapPendingOrApproved_first_match_witness :
  exists q,
    req_at 2 (st_reqs (set_emps (fun es => app es [mkEmp "Bob" "bob@x.com" "T1" 10 0 10])
      (set_reqs (fun rs => app rs [mkReq 0 "bob@x.com" "Bob" (Some 20152) (Some 20153) ST_PENDING 2 "" ""])
        (st_row ST_PENDING false)))) = Some q
    /\ team_hit [mkEmp "Ana" "ana@x.com" "T1" 10 5 5; mkEmp "Bob" "bob@x.com" "T1" 10 0 10]
         "Bob" "T1" (Some 20152) (Some 20153) 3 2 q = true.
Proof.
  pose proof (hasTeamOverlapPendingOrApproved_first_match
    (set_emps (fun es => app es [mkEmp "Bob" "bob@x.com" "T1" 10 0 10])
      (set_reqs (fun rs => app rs [mkReq 0 "bob@x.com" "Bob" (Some 20152) (Some 20153) ST_PENDING 2 "" ""])
        (st_row ST_PENDING false)))
    "Bob" (Some 20152) (Some 20153) 3 ltac:(reflexivity)) as H.
  assert (E : fst (hasTeamOverlapPendingOrApproved_ "Bob" (Some 20152) (Some 20153) 3
    (set_emps (fun es => app es [mkEmp "Bob" "bob@x.com" "T1" 10 0 10])
      (set_reqs (fun rs => app rs [mkReq 0 "bob@x.com" "Bob" (Some 20152) (Some 20153) ST_PENDING 2 "" ""])
        (st_row ST_PENDING false)))) = Ok (Some (mkTeamHit 2 "Ana" ST_PENDING "T1")))
    by (vm_compute; reflexivity).
  cbv zeta in H. rewrite E in H.
  destruct H as (q & Hq & Hh & _). exists q. split; [exact Hq|exact Hh].
Defined.

Lemma sortSolicitudesByFechaInicio_spec_witness :
  fst (sortSolicitudesByFechaInicio_
    (set_reqs (fun rs => mkReq 0 "bob@x.com" "Bob" (Some 20160) (Some 20161) ST_PENDING 2 "" "" :: rs)
      (st_row ST_PENDING false))) = Ok tt
  /\ st_reqs (snd (sortSolicitudesByFechaInicio_
    (set_reqs (fun rs => mkReq 0 "bob@x.com" "Bob" (Some 20160) (Some 20161) ST_PENDING 2 "" "" :: rs)
      (st_row ST_PENDING false))))
     ≡ₚ [mkReq 0 "bob@x.com" "Bob" (Some 20160) (Some 20161) ST_PENDING 2 "" ""; row_ana ST_PENDING].
Proof.
  destruct (sortSolicitudesByFechaInicio_spec
    (set_reqs (fun rs => mkReq 0 "bob@x.com" "Bob" (Some 20160) (Some 20161) ST_PENDING 2 "" "" :: rs)
      (st_row ST_PENDING false)) ltac:(reflexivity)) as (H1 & H2 & _ & _).
  split; [exact H1|exact H2].
Defined.

Lemma processRequestRow_invalid_data_witness :
  (processRequestRow_ 2 (set_reqs (fun _ => [mkReq 0 "ana@x.com" "" (Some 20150) (Some 20154) "" 0 "" ""])
     (st_row ST_PENDING false))).1 = Ok (mail_none, mail_none)
  /\ st_reqs (processRequestRow_ 2 (set_reqs (fun _ => [mkReq 0 "ana@x.com" "" (Some 20150) (Some 20154) "" 0 "" ""])
     (st_row ST_PENDING false))).2
     = [mkReq 0 "ana@x.com" "" (Some 20150) (Some 20154) ST_PENDING 0 "" "Invalid Data"].
Proof.
  destruct (processRequestRow_invalid_data
    (set_reqs (fun _ => [mkReq 0 "ana@x.com" "" (Some 20150) (Some 20154) "" 0 "" ""]) (st_row ST_PENDING false))
    2 (mkReq 0 "ana@x.com" "" (Some 20150) (Some 20154) "" 0 "" "")
    ltac:(reflexivity) ltac:(reflexivity) ltac:(reflexivity)) as (H1 & H2 & _).
  split; [exact H1|]. rewrite H2. reflexivity.
Defined.

Lemma apiCreateRequest_reversed_range_witness :
  exists nombre,
    (apiCreateRequest "ana@x.com" 1 20100 20200 20190 (st_row ST_PENDING false)).1
      = Ok (true, (mail_none, mail_none))
    /\ st_reqs (apiCreateRequest "ana@x.com" 1 20100 20200 20190 (st_row ST_PENDING false)).2
       = [row_ana ST_PENDING;
          mkReq 1 "ana@x.com" nombre (Some 20200) (Some 20190) ST_PENDING 0 "" "Invalid Data"].
Proof.
  destruct (apiCreateRequest_reversed_range "ana@x.com" 1 20100 20200 20190 (st_row ST_PENDING false)
    ltac:(reflexivity) ltac:(reflexivity) ltac:(reflexivity) ltac:(vm_compute; reflexivity)
    ltac:(lia) ltac:(lia) ltac:(intros q [<-|[]]; reflexivity)) as (nombre & H1 & H2 & _).
  exists nombre. split; [exact H1|exact H2].
Defined.

Lemma apiProcessRequest_non_manager_witness :
  (apiProcessRequest "ana@x.com" 2 ST_APPROVED (st_row ST_PENDING false)).1 = Err E_Unauthorized
  /\ st_reqs (apiProcessRequest "ana@x.com" 2 ST_APPROVED (st_row ST_PENDING false)).2
     = [row_ana ST_PENDING].
Proof.
  destruct (apiProcessRequest_non_manager "ana@x.com" 2 ST_APPROVED (st_row ST_PENDING false)
    (bool_decide_unpack ("ana@x.com" ∉ ["m@x.com"]) ltac:(vm_compute; exact I))) as (H1 & H2 & _).
  split; [exact (H1 eq_refl)|exact H2].
Defined.

Lemma apiProcessRequest_calendar_down_witness :
  (apiProcessRequest "m@x.com" 2 "Rechazado" (st_row ST_PENDING true)).1 = Err E_Calendar
  /\ st_reqs (apiProcessRequest "m@x.com" 2 "Rechazado" (st_row ST_PENDING true)).2
     = [row_ana "Rechazado"].
Proof.
  destruct (apiProcessRequest_calendar_down "m@x.com" 2 "Rechazado" (st_row ST_PENDING true)
    (row_ana ST_PENDING) ltac:(reflexivity) ltac:(reflexivity)
    (bool_decide_unpack ("m@x.com" ∈ ["m@x.com"]) ltac:(vm_compute; exact I)) ltac:(reflexivity)
    ltac:(vm_compute; discriminate)) as (H1 & H2 & _).
  split; [exact H1|]. rewrite H2. reflexivity.
Defined.

Lemma handleEstadoChange_not_approved_witness :
  (handleEstadoChange_ 2 ST_PENDING (st_row "Rechazado" false)).1 = Ok tt
  /\ st_events (handleEstadoChange_ 2 ST_PENDING (st_row "Rechazado" false)).2 = ∅
  /\ st_outbox (handleEstadoChange_ 2 ST_PENDING (st_row "Rechazado" false)).2
     = [("ana@x.com", "Request Rechazado")].
Proof.
  destruct (handleEstadoChange_not_approved (st_row "Rechazado" false) 2 ST_PENDING
    (row_ana "Rechazado") ltac:(reflexivity) ltac:(reflexivity) ltac:(reflexivity)
    ltac:(reflexivity) ltac:(reflexivity) ltac:(reflexivity)) as (H1 & H2 & _ & H4).
  split; [exact H1|]. split; [rewrite H2; vm_compute; reflexivity|].
  rewrite H4. reflexivity.
Defined.

(** With the storage reachable, [notifyManagersCompact_] reports
    [No managers found] and sends nothing when the manager list is empty;
    otherwise it sends one mail, to the first listed manager, or reports the
    mail failure and sends nothing. *)
Theorem notifyManagersCompact_outcome subject s :
  st_db_fuel s = None ->
  match st_managers s with
  | [] => (notifyManagersCompact_ subject s).1 = Ok (false, Some "No managers found")
          /\ st_outbox (notifyManagersCompact_ subject s).2 = st_outbox s
  | m :: _ =>
      (notifyManagersCompact_ subject s).1
        = Ok (if st_mail_fault s then (false, Some "MailApp error") else (true, None))
      /\ st_outbox (notifyManagersCompact_ subject s).2
         = app (st_outbox s) (if st_mail_fault s then [] else [(m, subject)])
  end.
Proof.
  intros Hf.
  unfold notifyManagersCompact_, getManagerEmails_, touch, _getDb, storage_op, bind, gets, ret,
    sendEmailSafe_.
  simpl. rewrite Hf. simpl. rewrite Hf. simpl.
  destruct (st_managers s) as [|m ms]; simpl; [split; reflexivity|].
  destruct (st_mail_fault s); simpl; (split; [reflexivity|]); [rewrite app_nil_r|]; reflexivity.
Qed.

Lemma notifyManagersCompact_outcome_witness :
  (notifyManagersCompact_ "New request" (st_row ST_PENDING false)).1 = Ok (true, None)
  /\ st_outbox (notifyManagersCompact_ "New request" (st_row ST_PENDING false)).2
     = [("m@x.com", "New request")].
Proof.
  exact (notifyManagersCompact_outcome "New request" (st_row ST_PENDING false) ltac:(reflexivity)).
Defined.
